(** * sandyclaw: the R2 backup pipeline of [src/gateway/sync.ts]

    A shallow embedding of [syncToR2] and [verifyR2Backup] together with the
    properties the design document states about them.

    The two operations are asynchronous procedures that talk to a sandbox
    (a command executor) and to the storage mount provider.  They are
    embedded as computations in a state-and-exception monad: the state is
    the trace of the external calls issued so far, an exception is a
    JavaScript [throw] (a rejected promise under [await]), and the sandbox is
    an oracle that answers each [startProcess] call from the trace and the
    command text.

    The Cloudflare Access code of [src/auth] (the middleware, the token
    extraction and the JWKS cache of [jwt.ts]) is embedded the same way, over
    a state that holds the cache, the clock, the context slot and the
    console. *)

From Stdlib Require Import String Ascii List ZArith Bool Lia.
From Stdlib Require Decimal DecimalNat DecimalString.
Import ListNotations.
Open Scope string_scope.

(** ** JavaScript string primitives used by the source *)

Module JsString.

(** [s.includes(needle)]. *)
Fixpoint includes (needle s : string) : bool :=
  String.prefix needle s
  || match s with
     | EmptyString => false
     | String _ rest => includes needle rest
     end.

(** The white-space code units of [String.prototype.trim] that fit in one
    byte: TAB, LF, VT, FF, CR and SPACE.  (The model keeps strings as byte
    sequences; the wider Unicode spaces are not represented.) *)
Definition is_space (c : ascii) : bool :=
  let n := nat_of_ascii c in
  ((9 <=? n) && (n <=? 13))%nat || (n =? 32)%nat.

Fixpoint trimStart (s : string) : string :=
  match s with
  | String c rest => if is_space c then trimStart rest else s
  | EmptyString => EmptyString
  end.

(** Right trim: a character is dropped when it is a space and everything
    after it has been dropped too. *)
Fixpoint trimEnd (s : string) : string :=
  match s with
  | EmptyString => EmptyString
  | String c rest =>
      match trimEnd rest with
      | EmptyString => if is_space c then EmptyString else String c EmptyString
      | kept => String c kept
      end
  end.

(** [s.trim()]. *)
Definition trim (s : string) : string := trimEnd (trimStart s).

(** [s.split(sep)] for a one-character separator: always at least one
    piece, the pieces never contain the separator. *)
Fixpoint split (sep : ascii) (s : string) : list string :=
  match s with
  | EmptyString => [EmptyString]
  | String c rest =>
      if Ascii.eqb c sep then EmptyString :: split sep rest
      else match split sep rest with
           | piece :: pieces => String c piece :: pieces
           | [] => [String c EmptyString]
           end
  end.

Definition is_digit (c : ascii) : bool :=
  let n := nat_of_ascii c in ((48 <=? n) && (n <=? 57))%nat.

Definition digit_value (c : ascii) : Z := Z.of_nat (nat_of_ascii c) - 48.

(** The longest run of decimal digits at the head of [s], read with the
    accumulator [acc]; [seen] tells whether a digit was consumed. *)
Fixpoint read_digits (s : string) (seen : bool) (acc : Z) : option Z :=
  match s with
  | String c rest =>
      if is_digit c then read_digits rest true (10 * acc + digit_value c)
      else if seen then Some acc else None
  | EmptyString => if seen then Some acc else None
  end.

(** [parseInt(s, 10)]: leading white space is skipped, one sign is
    accepted, then the longest digit prefix is read; [None] is NaN.
    The value is kept exact (a JavaScript number rounds beyond 2^53). *)
Definition parseInt10 (s : string) : option Z :=
  match trimStart s with
  | String "-" rest => option_map Z.opp (read_digits rest false 0)
  | String "+" rest => read_digits rest false 0
  | body => read_digits body false 0
  end.

(** The regular expression [/^\d{4}-\d{2}-\d{2}/] of the source. *)
Definition matches_date_prefix (s : string) : bool :=
  match s with
  | String y1 (String y2 (String y3 (String y4 (String d1
      (String m1 (String m2 (String d2 (String a1 (String a2 _))))))))) =>
      is_digit y1 && is_digit y2 && is_digit y3 && is_digit y4
      && Ascii.eqb d1 "-" && is_digit m1 && is_digit m2
      && Ascii.eqb d2 "-" && is_digit a1 && is_digit a2
  | _ => false
  end.

(** Truthiness of a string value: the empty string is falsy. *)
Definition nonempty (s : string) : bool :=
  match s with EmptyString => false | _ => true end.

(** Truthiness of a possibly [undefined] string. *)
Definition truthy (v : option string) : bool :=
  match v with Some s => nonempty s | None => false end.

(** ASCII lower-casing, for case-blind comparison of messages. *)
Definition lower (c : ascii) : ascii :=
  let n := nat_of_ascii c in
  if ((65 <=? n) && (n <=? 90))%nat then ascii_of_nat (n + 32) else c.

Fixpoint toLowerCase (s : string) : string :=
  match s with
  | EmptyString => EmptyString
  | String c rest => String (lower c) (toLowerCase rest)
  end.

(** [v?.includes(needle)] used as a condition: [undefined] is falsy. *)
Definition includesOpt (needle : string) (v : option string) : bool :=
  match v with Some s => includes needle s | None => false end.

(** A value interpolated in a template literal. *)
Definition interpolate (v : option string) : string :=
  match v with Some s => s | None => "undefined" end.

End JsString.

(** ** Data model *)

(** The three storage credentials of the worker environment; each may be
    [undefined]. *)
Record MoltbotEnv := {
  R2_ACCESS_KEY_ID : option string;
  R2_SECRET_ACCESS_KEY : option string;
  CF_ACCOUNT_ID : option string
}.

Record SyncResult := {
  success : bool;
  lastSync : option string;
  error : option string;
  details : option string
}.

Record ManifestEntry := {
  path : string;
  checksum : string;
  size : Z
}.

Record BackupManifest := {
  version : Z;
  timestamp : string;
  entries : list ManifestEntry
}.

(** The anonymous result type of [verifyR2Backup]. *)
Record VerifyResult := {
  valid : bool;
  errors : list string
}.

(** ** Effects: exceptions, the sandbox, the call trace *)

(** A thrown value.  The handlers of the source only ask whether it is an
    [Error] and, if so, read its [message]. *)
Inductive Thrown :=
| ErrorObject (message : string)
| OtherValue.

Inductive Outcome (A : Type) :=
| Returned (a : A)
| Raised (e : Thrown).
Arguments Returned {A} a.
Arguments Raised {A} e.

(** What [getLogs] resolves to; both streams are optional in the source
    ([logs.stdout?.]). *)
Record Logs := {
  stdout : option string;
  stderr : option string
}.

(** A spawned process, as far as the pipeline can observe it: its exit
    status, whether waiting for it with a given timeout returns or throws,
    and what [getLogs] yields. *)
Record Process := {
  exitCode : Z;
  completion : Z -> option Thrown;
  logs : Outcome Logs
}.

(** The external calls an invocation can make. *)
Inductive Event :=
| MountCall
| StartProcess (command : string).

(** The sandbox is an oracle: the answer to [startProcess] may depend on
    everything issued before and on the command text; likewise the answer of
    the mount provider. *)
Record Sandbox := {
  spawn : list Event -> string -> Outcome Process;
  mountable : list Event -> bool
}.

(** Computations: the trace of calls issued so far is threaded through, and
    a computation either returns or raises. *)
Definition M (A : Type) : Type := list Event -> Outcome A * list Event.

Definition ret {A} (a : A) : M A := fun tr => (Returned a, tr).

Definition throw {A} (e : Thrown) : M A := fun tr => (Raised e, tr).

Definition bind {A B} (m : M A) (k : A -> M B) : M B :=
  fun tr =>
    match m tr with
    | (Returned a, tr') => k a tr'
    | (Raised e, tr') => (Raised e, tr')
    end.

(** [try { body } catch (err) { handler err }]. *)
Definition try_catch {A} (body : M A) (handler : Thrown -> M A) : M A :=
  fun tr =>
    match body tr with
    | (Returned a, tr') => (Returned a, tr')
    | (Raised e, tr') => handler e tr'
    end.

Declare Scope js_scope.
Delimit Scope js_scope with js.
Notation "x <- m ;; k" := (bind m (fun x => k))
  (at level 61, m at next level, right associativity) : js_scope.
Open Scope js_scope.

(** A pure step that may throw. *)
Definition liftOutcome {A} (o : Outcome A) : M A := fun tr => (o, tr).

(** [await sandbox.startProcess(command)]. *)
Definition startProcess (sandbox : Sandbox) (command : string) : M Process :=
  fun tr => (spawn sandbox tr command, (tr ++ [StartProcess command])%list).

(** [await proc.getLogs()]. *)
Definition getLogs (proc : Process) : M Logs :=
  fun tr => (logs proc, tr).

(** Modelled from the spec: [waitForProcess] lives in [./utils], which is not
    among the sources.  The command executor "fails with a timeout condition
    if the command does not complete within [timeoutMs]"; otherwise the wait
    returns nothing. *)
Definition waitForProcess (proc : Process) (timeoutMs : Z) : M unit :=
  fun tr =>
    match completion proc timeoutMs with
    | None => (Returned tt, tr)
    | Some e => (Raised e, tr)
    end.

(** Modelled from the spec: [mountR2Storage] lives in [./r2], which is not
    among the sources.  The storage mount provider is
    [ensureMounted(config) -> bool]: it answers with a boolean and does not
    throw.  Each call is recorded in the trace. *)
Definition mountR2Storage (sandbox : Sandbox) (env : MoltbotEnv) : M bool :=
  fun tr => (Returned (mountable sandbox tr), (tr ++ [MountCall])%list).

(** [err instanceof Error ? err.message : fallback]. *)
Definition message_or (fallback : string) (err : Thrown) : string :=
  match err with
  | ErrorObject message => message
  | OtherValue => fallback
  end.

(** The guard [!env.R2_ACCESS_KEY_ID || !env.R2_SECRET_ACCESS_KEY ||
    !env.CF_ACCOUNT_ID] shared by both operations. *)
Definition not_configured (env : MoltbotEnv) : bool :=
  negb (JsString.truthy (R2_ACCESS_KEY_ID env))
  || negb (JsString.truthy (R2_SECRET_ACCESS_KEY env))
  || negb (JsString.truthy (CF_ACCOUNT_ID env)).

Definition dq : string := String "034"%char EmptyString.
Definition nl : string := String "010"%char EmptyString.

(** The processes and logs a sync cycle meets when it runs to the end, named
    after the variables of [syncToR2]. *)
Record Run := {
  checkProc : Process;
  checkLogs : Logs;
  rotateProc : Process;
  proc : Process;
  manifestProc : Process;
  manifestLogs : Logs;
  writeProc : Process;
  timestampProc : Process;
  timestampLogs : Logs
}.

(** ** Scripted sandboxes

    The test-suite of the repository drives [syncToR2] with a mock sandbox
    whose [startProcess] hands out prepared processes one after the other.
    The same device gives concrete sandboxes here. *)

Module Mock.

(** [createMockProcess(stdout, {exitCode, stderr})]. *)
Definition process (out err : string) (code : Z) : Process :=
  {| exitCode := code;
     completion := fun _ => None;
     logs := Returned {| stdout := Some out; stderr := Some err |} |}.

Definition ok (out : string) : Outcome Process := Returned (process out "" 0).

Definition throwing (message : string) : Outcome Process :=
  Raised (ErrorObject message).

(** A process that never completes in time. *)
Definition hanging : Outcome Process :=
  Returned {| exitCode := 0;
              completion := fun _ => Some (ErrorObject "timeout");
              logs := Returned {| stdout := None; stderr := None |} |}.

Definition started (tr : list Event) : nat :=
  length (filter (fun ev => match ev with
                            | StartProcess _ => true
                            | MountCall => false
                            end) tr).

(** The k-th [startProcess] call of an invocation gets the k-th process of
    the script; once the script is used up, processes print nothing. *)
Definition sandbox (script : list (Outcome Process)) (mounts : bool) : Sandbox :=
  {| spawn := fun tr _ => nth (started tr) script (ok "");
     mountable := fun _ => mounts |}.

Definition env : MoltbotEnv :=
  {| R2_ACCESS_KEY_ID := Some "test-key-id";
     R2_SECRET_ACCESS_KEY := Some "test-secret-key";
     CF_ACCOUNT_ID := Some "test-account-id" |}.

Definition envWithout : MoltbotEnv :=
  {| R2_ACCESS_KEY_ID := Some "test-key-id";
     R2_SECRET_ACCESS_KEY := None;
     CF_ACCOUNT_ID := Some "test-account-id" |}.

(** The mount path the test-suite expects in the transfer command. *)
Definition mountPath : string := "/data/moltbot".

Definition clock : string := "2026-01-27T12:00:00.000Z".

Definition manifest : BackupManifest :=
  {| version := 1;
     timestamp := clock;
     entries := [ {| path := "clawdbot/clawdbot.json"; checksum := "abc123"; size := 100 |};
                  {| path := "skills/a.md"; checksum := "def456"; size := 7 |};
                  {| path := "skills/b.md"; checksum := "0a1b2c"; size := 12 |} ] |}.

Definition output (out err : string) : Logs :=
  {| stdout := Some out; stderr := Some err |}.

(** A cycle in which every command does its work; the listing holds one
    well-formed record, one with an unreadable size and one stray line. *)
Definition goodRun : Run :=
  {| checkProc := process "ok" "" 0;
     checkLogs := output "ok" "";
     rotateProc := process "" "" 0;
     proc := process "" "" 0;
     manifestProc :=
       process ("clawdbot/clawdbot.json|abc123|100" ++ nl
                ++ "skills/a.md|def456|n/a" ++ nl
                ++ "find: skills/tmp: Permission denied" ++ nl) "" 0;
     manifestLogs :=
       output ("clawdbot/clawdbot.json|abc123|100" ++ nl
               ++ "skills/a.md|def456|n/a" ++ nl
               ++ "find: skills/tmp: Permission denied" ++ nl) "";
     writeProc := process "" "" 0;
     timestampProc := process ("2026-01-27T12:00:00+00:00" ++ nl) "" 0;
     timestampLogs := output ("2026-01-27T12:00:00+00:00" ++ nl) "" |}.









(** The script that answers a cycle with the processes of [run]. *)
Definition scriptOf (run : Run) : list (Outcome Process) :=
  [ Returned (checkProc run); Returned (rotateProc run); Returned (proc run);
    Returned (manifestProc run); Returned (writeProc run);
    Returned (timestampProc run) ].

(** A stand-in manifest codec: one known document. *)
Definition document : string := "{manifest}".

Definition stringify (m : BackupManifest) : string := document.

Definition parse (text : string) : Outcome BackupManifest :=
  if String.eqb text document then Returned manifest
  else Raised (ErrorObject "Unexpected token in JSON").

End Mock.


(** ** Cloudflare Access authentication ([src/auth])

    The middleware and the JWT verification run against per-request data
    (the context), module state (the JWKS cache) and outside services (the
    [jose] verifier, the downstream handler, the URL parser, the clock).
    They are embedded in a second state-and-exception monad whose state
    holds what the code reads and writes. *)

(** The bindings of the worker environment ([MoltbotEnv]) that the
    authentication code reads; each may be [undefined]. *)
Record AccessEnv := {
  DEV_MODE : option string;
  E2E_TEST_MODE : option string;
  CF_ACCESS_TEAM_DOMAIN : option string;
  CF_ACCESS_AUD : option string
}.

(** The request context, as far as the middleware reads it: the environment,
    [c.req.header('CF-Access-JWT-Assertion')] and
    [c.req.raw.headers.get('Cookie')]. *)
Record RequestContext := {
  env : AccessEnv;
  jwtAssertion : option string;
  cookie : option string
}.

(** The fields of the verified payload the middleware copies, and the user
    object it stores with [c.set('accessUser', ...)]. *)
Module JWTPayload.
Record t := { email : option string; name : option string }.
End JWTPayload.

Module AccessUser.
Record t := { email : option string; name : option string }.
End AccessUser.

Inductive ResponseType := json | html.

Record AccessMiddlewareOptions := {
  type : ResponseType;
  redirectOnMissing : option bool
}.

(** [c.json(body, status)], [c.html(body, status)] and
    [c.redirect(location, status)]. *)
Inductive Response :=
| JsonResponse (body : list (string * string)) (status : Z)
| HtmlResponse (body : string) (status : Z)
| RedirectResponse (location : string) (status : Z).

Definition statusOf (r : Response) : Z :=
  match r with
  | JsonResponse _ status => status
  | HtmlResponse _ status => status
  | RedirectResponse _ status => status
  end.

(** A remote key set made by [createRemoteJWKSet]: the URL it fetches from
    and which of the fetchers made so far it is. *)
Record JWKS := {
  certsUrl : string;
  serial : nat
}.

Record CacheEntry := {
  jwks : JWKS;
  createdAt : Z
}.

(** One [console.error] call: the text and, when given, the value logged
    with it. *)
Inductive ConsoleEntry :=
| ConsoleError (text : string) (value : option Thrown).

(** The state the authentication code works on: the module-level
    [jwksCache], the clock [Date.now()], the number of fetchers created,
    the [accessUser] slot of the context, the console, and the calls of
    [next] (each with the [accessUser] it could see). *)
Record Runtime := {
  jwksCache : list (string * CacheEntry);
  dateNow : Z;
  fetchers : nat;
  accessUser : option AccessUser.t;
  console : list ConsoleEntry;
  nextCalls : list (option AccessUser.t)
}.

(** The services around the code: [jwtVerify] of [jose] (token, key set,
    issuer, audience), the downstream handler behind [next()], and
    [new URL(text)], which throws on text that is no URL. *)
Record Services := {
  jwtVerify : string -> JWKS -> string -> string -> Outcome JWTPayload.t;
  downstream : option AccessUser.t -> Outcome unit;
  newURL : string -> Outcome string
}.

Definition Eff (A : Type) : Type := Runtime -> Outcome A * Runtime.

Definition pure {A} (a : A) : Eff A := fun w => (Returned a, w).

Definition andThen {A B} (m : Eff A) (k : A -> Eff B) : Eff B :=
  fun w =>
    match m w with
    | (Returned a, w') => k a w'
    | (Raised e, w') => (Raised e, w')
    end.

Definition attempt {A} (body : Eff A) (handler : Thrown -> Eff A) : Eff A :=
  fun w =>
    match body w with
    | (Returned a, w') => (Returned a, w')
    | (Raised e, w') => handler e w'
    end.

Declare Scope access_scope.
Delimit Scope access_scope with access.
Notation "x <- m ;; k" := (andThen m (fun x => k))
  (at level 61, m at next level, right associativity) : access_scope.
Open Scope access_scope.

Definition withCache (cache : list (string * CacheEntry)) (fresh : nat)
           (w : Runtime) : Runtime :=
  {| jwksCache := cache; dateNow := dateNow w; fetchers := fresh;
     accessUser := accessUser w; console := console w;
     nextCalls := nextCalls w |}.

(** [console.error(text)] and [console.error(text, value)]. *)
Definition consoleError (text : string) (value : option Thrown) : Eff unit :=
  fun w =>
    (Returned tt,
     {| jwksCache := jwksCache w; dateNow := dateNow w; fetchers := fetchers w;
        accessUser := accessUser w;
        console := (console w ++ [ConsoleError text value])%list;
        nextCalls := nextCalls w |}).

(** [c.set('accessUser', user)]. *)
Definition setAccessUser (user : AccessUser.t) : Eff unit :=
  fun w =>
    (Returned tt,
     {| jwksCache := jwksCache w; dateNow := dateNow w; fetchers := fetchers w;
        accessUser := Some user; console := console w;
        nextCalls := nextCalls w |}).

(** [next()]: the downstream handler runs with the context as it is. *)
Definition callNext (services : Services) : Eff unit :=
  fun w =>
    (downstream services (accessUser w),
     {| jwksCache := jwksCache w; dateNow := dateNow w; fetchers := fetchers w;
        accessUser := accessUser w; console := console w;
        nextCalls := (nextCalls w ++ [accessUser w])%list |}).

(** [value === text] for a possibly [undefined] value. *)
Definition strictlyEquals (value : option string) (text : string) : bool :=
  match value with
  | Some s => String.eqb s text
  | None => false
  end.

(** [env.CF_ACCESS_TEAM_DOMAIN && env.CF_ACCESS_AUD] as a condition. *)
Definition accessConfigured (e : AccessEnv) : bool :=
  JsString.truthy (CF_ACCESS_TEAM_DOMAIN e) && JsString.truthy (CF_ACCESS_AUD e).

Definition isDevMode (e : AccessEnv) : Eff bool :=
  if strictlyEquals (DEV_MODE e) "true"
  then
    if accessConfigured e
    then
      _ <- consoleError "SECURITY: DEV_MODE blocked - CF Access is configured. Remove DEV_MODE for production." None ;;
      pure false
    else pure true
  else pure false.

Definition isE2ETestMode (e : AccessEnv) : Eff bool :=
  if strictlyEquals (E2E_TEST_MODE e) "true"
  then
    if accessConfigured e
    then
      _ <- consoleError "SECURITY: E2E_TEST_MODE blocked - CF Access is configured. Remove E2E_TEST_MODE for production." None ;;
      pure false
    else pure true
  else pure false.

(** [cookieHeader?.split(';').find(cookie =>
    cookie.trim().startsWith('CF_Authorization='))?.split('=')[1]]. *)
Definition cookieJWT (cookieHeader : option string) : option string :=
  match cookieHeader with
  | None => None
  | Some raw =>
      match find (fun ck => String.prefix "CF_Authorization=" (JsString.trim ck))
                 (JsString.split ";" raw) with
      | None => None
      | Some found => nth_error (JsString.split "=" found) 1
      end
  end.

(** [jwtHeader || jwtCookie || null]. *)
Definition extractJWT (c : RequestContext) : option string :=
  let jwtHeader := jwtAssertion c in
  let jwtCookie := cookieJWT (cookie c) in
  if JsString.truthy jwtHeader then jwtHeader
  else if JsString.truthy jwtCookie then jwtCookie
  else None.

Definition JWKS_CACHE_TTL_MS : Z := 5 * 60 * 1000.

(** [jwksCache.get(issuer)]. *)
Fixpoint cacheGet (issuer : string) (cache : list (string * CacheEntry))
  : option CacheEntry :=
  match cache with
  | [] => None
  | (key, entry) :: rest =>
      if String.eqb key issuer then Some entry else cacheGet issuer rest
  end.

(** [jwksCache.set(issuer, entry)]: an existing key keeps its place, a new
    one goes last. *)
Fixpoint cacheSet (issuer : string) (entry : CacheEntry)
         (cache : list (string * CacheEntry)) : list (string * CacheEntry) :=
  match cache with
  | [] => [(issuer, entry)]
  | (key, old) :: rest =>
      if String.eqb key issuer then (key, entry) :: rest
      else (key, old) :: cacheSet issuer entry rest
  end.

Definition clearJWKSCache : Eff unit :=
  fun w => (Returned tt, withCache [] (fetchers w) w).

Definition getOrCreateJWKS (services : Services) (issuer : string) : Eff JWKS :=
  fun w =>
    let cached := cacheGet issuer (jwksCache w) in
    let now := dateNow w in
    let create :=
      match newURL services (issuer ++ "/cdn-cgi/access/certs") with
      | Raised e => (Raised e, w)
      | Returned url =>
          let made := {| certsUrl := url; serial := fetchers w |} in
          (Returned made,
           withCache (cacheSet issuer {| jwks := made; createdAt := now |}
                               (jwksCache w))
                     (S (fetchers w)) w)
      end in
    match cached with
    | Some entry =>
        if (now - createdAt entry <? JWKS_CACHE_TTL_MS)%Z
        then (Returned (jwks entry), w)
        else create
    | None => create
    end.

(** [teamDomain.startsWith('https://') ? teamDomain : `https://${teamDomain}`]. *)
Definition issuerOf (teamDomain : string) : string :=
  if String.prefix "https://" teamDomain then teamDomain
  else "https://" ++ teamDomain.

Definition verifyAccessJWT (services : Services)
           (token teamDomain expectedAud : string) : Eff JWTPayload.t :=
  let issuer := issuerOf teamDomain in
  keys <- getOrCreateJWKS services issuer ;;
  (fun w => (jwtVerify services token keys issuer expectedAud, w)).

Definition notConfiguredPage : string :=
  nl ++
  "          <html>" ++ nl ++
  "            <body>" ++ nl ++
  "              <h1>Admin UI Not Configured</h1>" ++ nl ++
  "              <p>Set CF_ACCESS_TEAM_DOMAIN and CF_ACCESS_AUD environment variables.</p>" ++ nl ++
  "            </body>" ++ nl ++
  "          </html>" ++ nl ++
  "        ".

Definition missingTokenPage (teamDomain : string) : string :=
  nl ++
  "          <html>" ++ nl ++
  "            <body>" ++ nl ++
  "              <h1>Unauthorized</h1>" ++ nl ++
  "              <p>Missing Cloudflare Access token.</p>" ++ nl ++
  "              <a href=" ++ dq ++ "https://" ++ teamDomain ++ dq ++ ">Login</a>" ++ nl ++
  "            </body>" ++ nl ++
  "          </html>" ++ nl ++
  "        ".

Definition invalidSessionPage (teamDomain : string) : string :=
  nl ++
  "          <html>" ++ nl ++
  "            <body>" ++ nl ++
  "              <h1>Unauthorized</h1>" ++ nl ++
  "              <p>Your Cloudflare Access session is invalid or expired.</p>" ++ nl ++
  "              <a href=" ++ dq ++ "https://" ++ teamDomain ++ dq ++ ">Login again</a>" ++ nl ++
  "            </body>" ++ nl ++
  "          </html>" ++ nl ++
  "        ".

Definition devUser : AccessUser.t :=
  {| AccessUser.email := Some "dev@localhost";
     AccessUser.name := Some "Dev User" |}.

(** [isDevMode(c.env) || isE2ETestMode(c.env)]: the second test runs only
    when the first is false. *)
Definition bypassesAuth (e : AccessEnv) : Eff bool :=
  dev <- isDevMode e ;;
  if dev then pure true else isE2ETestMode e.

(** The handler [createAccessMiddleware(options)] returns, applied to a
    context; [None] is the handler ending without a response of its own
    (after [next()]). *)
Definition createAccessMiddleware (services : Services)
           (options : AccessMiddlewareOptions) (c : RequestContext)
  : Eff (option Response) :=
  let redirect := match redirectOnMissing options with
                  | Some b => b
                  | None => false
                  end in
  bypass <- bypassesAuth (env c) ;;
  if bypass
  then
    _ <- setAccessUser devUser ;;
    _ <- callNext services ;;
    pure None
  else
    let teamDomain := CF_ACCESS_TEAM_DOMAIN (env c) in
    let expectedAud := CF_ACCESS_AUD (env c) in
    if negb (JsString.truthy teamDomain) || negb (JsString.truthy expectedAud)
    then
      match type options with
      | json =>
          pure (Some (JsonResponse
                        [ ("error", "Cloudflare Access not configured");
                          ("hint", "Set CF_ACCESS_TEAM_DOMAIN and CF_ACCESS_AUD environment variables") ]
                        500))
      | html => pure (Some (HtmlResponse notConfiguredPage 500))
      end
    else
      let jwt := extractJWT c in
      if negb (JsString.truthy jwt)
      then
        match type options, redirect with
        | html, true =>
            pure (Some (RedirectResponse
                          ("https://" ++ JsString.interpolate teamDomain) 302))
        | json, _ =>
            pure (Some (JsonResponse
                          [ ("error", "Unauthorized");
                            ("hint", "Missing Cloudflare Access JWT. Ensure this route is protected by Cloudflare Access.") ]
                          401))
        | html, false =>
            pure (Some (HtmlResponse
                          (missingTokenPage (JsString.interpolate teamDomain))
                          401))
        end
      else
        attempt
          (payload <- verifyAccessJWT services (JsString.interpolate jwt)
                        (JsString.interpolate teamDomain)
                        (JsString.interpolate expectedAud) ;;
           _ <- setAccessUser {| AccessUser.email := JWTPayload.email payload;
                                 AccessUser.name := JWTPayload.name payload |} ;;
           _ <- callNext services ;;
           pure None)
          (fun err =>
             _ <- consoleError "Access JWT verification failed:" (Some err) ;;
             match type options with
             | json =>
                 pure (Some (JsonResponse
                               [ ("error", "Unauthorized");
                                 ("details", message_or "JWT verification failed" err) ]
                               401))
             | html =>
                 pure (Some (HtmlResponse
                               (invalidSessionPage (JsString.interpolate teamDomain))
                               401))
             end).

(** *** Vocabulary for the statements about authentication *)

(** [w'] differs from [w] at most in what was written to the console. *)
Definition onlyLogs (w w' : Runtime) : Prop :=
  jwksCache w' = jwksCache w
  /\ dateNow w' = dateNow w
  /\ fetchers w' = fetchers w
  /\ accessUser w' = accessUser w
  /\ nextCalls w' = nextCalls w
  /\ exists added, console w' = (console w ++ added)%list.

(** The same state at another time. *)
Definition atTime (t : Z) (w : Runtime) : Runtime :=
  {| jwksCache := jwksCache w; dateNow := t; fetchers := fetchers w;
     accessUser := accessUser w; console := console w;
     nextCalls := nextCalls w |}.

(** The user the middleware stores for a verified payload. *)
Definition userOf (payload : JWTPayload.t) : AccessUser.t :=
  {| AccessUser.email := JWTPayload.email payload;
     AccessUser.name := JWTPayload.name payload |}.

(** A [Cookie] header made of the given cookies. *)
Definition cookieHeader (cookies : list string) : string :=
  String.concat ";" cookies.


Close Scope access_scope.

(** *** A concrete deployment for the statements about authentication *)

Module MockAccess.

Definition teamDomain : string := "myteam.cloudflareaccess.com".
Definition audience : string := "4ef3a2aud".

Definition payload : JWTPayload.t :=
  {| JWTPayload.email := Some "ada@example.com";
     JWTPayload.name := Some "Ada" |}.

(** A verifier that accepts one token for the team's issuer and audience. *)
Definition verifier (token : string) (keys : JWKS) (issuer aud : string)
  : Outcome JWTPayload.t :=
  if String.eqb token "good.jwt.token"
     && String.eqb issuer ("https://" ++ teamDomain)
     && String.eqb aud audience
  then Returned payload
  else Raised (ErrorObject "signature verification failed").

Definition services : Services :=
  {| jwtVerify := verifier;
     downstream := fun _ => Returned tt;
     newURL := fun text => Returned text |}.


(** Access configured, and [DEV_MODE] left on by mistake. *)
Definition production : AccessEnv :=
  {| DEV_MODE := Some "true";
     E2E_TEST_MODE := None;
     CF_ACCESS_TEAM_DOMAIN := Some teamDomain;
     CF_ACCESS_AUD := Some audience |}.


Definition bare : AccessEnv :=
  {| DEV_MODE := None;
     E2E_TEST_MODE := Some "false";
     CF_ACCESS_TEAM_DOMAIN := Some teamDomain;
     CF_ACCESS_AUD := None |}.

Definition request (e : AccessEnv) (header cookies : option string)
  : RequestContext :=
  {| env := e; jwtAssertion := header; cookie := cookies |}.

Definition start : Runtime :=
  {| jwksCache := []; dateNow := 1000; fetchers := 0;
     accessUser := None; console := []; nextCalls := [] |}.

Definition jsonRoute : AccessMiddlewareOptions :=
  {| type := json; redirectOnMissing := None |}.

Definition htmlRoute : AccessMiddlewareOptions :=
  {| type := html; redirectOnMissing := Some true |}.

End MockAccess.


(** ** The pipeline of [sync.ts] *)

(** Rewriting database: which commands of the pipeline differ. *)
Create Rewrite HintDb commands.

Section Sync.

(** [R2_MOUNT_PATH] is imported from [../config], which is not among the
    sources; the pipeline is kept generic in it. *)
Variable R2_MOUNT_PATH : string.

(** [JSON.stringify(manifest, null, 2)] and [JSON.parse], the latter
    together with the type annotation [BackupManifest] of the source: it
    throws on text that is not a manifest document. *)
Variable JSON_stringify : BackupManifest -> string.
Variable JSON_parse : string -> Outcome BackupManifest.

(** [new Date().toISOString()], read once per sync cycle. *)
Variable now : string.

Definition checkCmd : string :=
  "test -f /root/.clawdbot/clawdbot.json && echo " ++ dq ++ "ok" ++ dq.

Definition backupDir : string := R2_MOUNT_PATH ++ "/clawdbot".
Definition backupDirPrev : string := R2_MOUNT_PATH ++ "/clawdbot.prev".
Definition skillsDir : string := R2_MOUNT_PATH ++ "/skills".
Definition skillsDirPrev : string := R2_MOUNT_PATH ++ "/skills.prev".

Definition rotateCmd : string :=
  nl ++
  "    if [ -d " ++ dq ++ backupDir ++ dq ++ " ]; then" ++ nl ++
  "      rm -rf " ++ dq ++ backupDirPrev ++ dq ++ " 2>/dev/null || true" ++ nl ++
  "      cp -a " ++ dq ++ backupDir ++ dq ++ " " ++ dq ++ backupDirPrev ++ dq
    ++ " 2>/dev/null || true" ++ nl ++
  "    fi" ++ nl ++
  "    if [ -d " ++ dq ++ skillsDir ++ dq ++ " ]; then" ++ nl ++
  "      rm -rf " ++ dq ++ skillsDirPrev ++ dq ++ " 2>/dev/null || true" ++ nl ++
  "      cp -a " ++ dq ++ skillsDir ++ dq ++ " " ++ dq ++ skillsDirPrev ++ dq
    ++ " 2>/dev/null || true" ++ nl ++
  "    fi" ++ nl ++
  "  ".

Definition syncCmd : string :=
  "rsync -r --no-times --delete --exclude='*.lock' --exclude='*.log' --exclude='*.tmp' /root/.clawdbot/ "
  ++ backupDir ++ "/ && rsync -r --no-times --delete /root/clawd/skills/ "
  ++ skillsDir ++ "/".

Definition manifestCmd : string :=
  nl ++
  "      cd " ++ R2_MOUNT_PATH
    ++ " && find clawdbot skills -type f 2>/dev/null | while read f; do" ++ nl ++
  "        sum=$(md5sum " ++ dq ++ "$f" ++ dq ++ " 2>/dev/null | cut -d' ' -f1)" ++ nl ++
  "        size=$(stat -c%s " ++ dq ++ "$f" ++ dq ++ " 2>/dev/null || stat -f%z "
    ++ dq ++ "$f" ++ dq ++ " 2>/dev/null)" ++ nl ++
  "        echo " ++ dq ++ "$f|$sum|$size" ++ dq ++ nl ++
  "      done" ++ nl ++
  "    ".

Definition writeManifestCmd (manifest : BackupManifest) : string :=
  "cat > " ++ R2_MOUNT_PATH ++ "/.manifest.json << 'EOFMANIFEST'" ++ nl ++
  JSON_stringify manifest ++ nl ++
  "EOFMANIFEST" ++ nl ++
  "date -Iseconds > " ++ R2_MOUNT_PATH ++ "/.last-sync".

Definition readTimestampCmd : string :=
  "cat " ++ R2_MOUNT_PATH ++ "/.last-sync".

Definition readManifestCmd : string :=
  "cat " ++ R2_MOUNT_PATH ++ "/.manifest.json".

Definition verifyCmd (entry : ManifestEntry) : string :=
  "md5sum " ++ dq ++ R2_MOUNT_PATH ++ "/" ++ path entry ++ dq
  ++ " 2>/dev/null | cut -d' ' -f1".

(** One record line [path|checksum|size] turned into an entry:
    [const [path, checksum, size] = line.split('|')] followed by
    [parseInt(size, 10) || 0].  A missing third field is [undefined],
    which [parseInt] reads as NaN.  The second field exists on every line
    that passed the filter (see [kept_line_has_checksum]). *)
Definition entryOfLine (line : string) : ManifestEntry :=
  let fields := JsString.split "|" line in
  {| path := nth 0 fields "";
     checksum := nth 1 fields "";
     size := match nth_error fields 2 with
             | Some field =>
                 match JsString.parseInt10 field with
                 | Some n => n
                 | None => 0%Z
                 end
             | None => 0%Z
             end |}.

(** [(stdout || '').trim().split('\n').filter(line => line.includes('|'))
    .map(...)], the entries of the manifest. *)
Definition manifestEntries (out : option string) : list ManifestEntry :=
  let text := match out with
              | Some s => if JsString.nonempty s then s else ""
              | None => ""
              end in
  map entryOfLine
      (filter (fun line => JsString.includes "|" line)
              (JsString.split "010" (JsString.trim text))).

Definition failure (msg : string) (info : option string) : SyncResult :=
  {| success := false; lastSync := None; error := Some msg; details := info |}.

(** The source sanity check (the first [try] block).  It yields [Some r]
    when the block executes [return r] and [None] when control falls
    through to the rest of the function. *)
Definition sanityCheck (sandbox : Sandbox) : M (option SyncResult) :=
  try_catch
    (checkProc <- startProcess sandbox checkCmd ;;
     _ <- waitForProcess checkProc 5000 ;;
     checkLogs <- getLogs checkProc ;;
     if negb (JsString.includesOpt "ok" (stdout checkLogs))
     then ret (Some (failure "Sync aborted: source missing clawdbot.json"
                (Some "The local config directory is missing critical files. This could indicate corruption or an incomplete setup.")))
     else ret None)
    (fun err =>
       ret (Some (failure "Failed to verify source files"
                          (Some (message_or "Unknown error" err))))).

(** [logs.stderr || logs.stdout || 'No timestamp file created']. *)
Definition transferDetails (l : Logs) : string :=
  if JsString.truthy (stderr l) then JsString.interpolate (stderr l)
  else if JsString.truthy (stdout l) then JsString.interpolate (stdout l)
  else "No timestamp file created".

(** [lastSync && lastSync.match(/^\d{4}-\d{2}-\d{2}/)]. *)
Definition wellFormedToken (token : option string) : bool :=
  match token with
  | Some t => JsString.nonempty t && JsString.matches_date_prefix t
  | None => false
  end.

(** Rotation, transfer, manifest and timestamp (the second [try] block). *)
Definition backupCycle (sandbox : Sandbox) : M SyncResult :=
  try_catch
    (rotateProc <- startProcess sandbox rotateCmd ;;
     _ <- waitForProcess rotateProc 15000 ;;
     proc <- startProcess sandbox syncCmd ;;
     _ <- waitForProcess proc 30000 ;;
     manifestProc <- startProcess sandbox manifestCmd ;;
     _ <- waitForProcess manifestProc 15000 ;;
     manifestLogs <- getLogs manifestProc ;;
     let manifest := {| version := 1;
                        timestamp := now;
                        entries := manifestEntries (stdout manifestLogs) |} in
     writeProc <- startProcess sandbox (writeManifestCmd manifest) ;;
     _ <- waitForProcess writeProc 5000 ;;
     timestampProc <- startProcess sandbox readTimestampCmd ;;
     _ <- waitForProcess timestampProc 5000 ;;
     timestampLogs <- getLogs timestampProc ;;
     let lastSync := option_map JsString.trim (stdout timestampLogs) in
     if wellFormedToken lastSync
     then ret {| success := true; lastSync := lastSync;
                 error := None; details := None |}
     else
       logs <- getLogs proc ;;
       ret (failure "Sync failed" (Some (transferDetails logs))))
    (fun err =>
       ret (failure "Sync error" (Some (message_or "Unknown error" err)))).

Definition syncToR2 (sandbox : Sandbox) (env : MoltbotEnv) : M SyncResult :=
  if not_configured env
  then ret (failure "R2 storage is not configured" None)
  else
    mounted <- mountR2Storage sandbox env ;;
    if negb mounted
    then ret (failure "Failed to mount R2 storage" None)
    else
      aborted <- sanityCheck sandbox ;;
      match aborted with
      | Some result => ret result
      | None => backupCycle sandbox
      end.

(** [actualChecksum !== entry.checksum], where [actualChecksum] may be
    [undefined]. *)
Definition differs (actual : option string) (expected : string) : bool :=
  match actual with
  | Some a => negb (String.eqb a expected)
  | None => true
  end.

Definition mismatchMessage (entry : ManifestEntry) (actual : option string)
  : string :=
  "Checksum mismatch: " ++ path entry ++ " (expected " ++ checksum entry
  ++ ", got " ++ JsString.interpolate actual ++ ")".

(** The [for (const entry of manifest.entries)] loop; [errors] is the
    array the loop pushes to. *)
Fixpoint verifyEntries (sandbox : Sandbox) (remaining : list ManifestEntry)
         (errors : list string) : M (list string) :=
  match remaining with
  | [] => ret errors
  | entry :: rest =>
      verifyProc <- startProcess sandbox (verifyCmd entry) ;;
      _ <- waitForProcess verifyProc 5000 ;;
      verifyLogs <- getLogs verifyProc ;;
      let actualChecksum := option_map JsString.trim (stdout verifyLogs) in
      verifyEntries sandbox rest
        (if differs actualChecksum (checksum entry)
         then (errors ++ [mismatchMessage entry actualChecksum])%list
         else errors)
  end.

Definition verifyR2Backup (sandbox : Sandbox) (env : MoltbotEnv)
  : M VerifyResult :=
  if not_configured env
  then ret {| valid := false; errors := ["R2 storage is not configured"] |}
  else
    mounted <- mountR2Storage sandbox env ;;
    if negb mounted
    then ret {| valid := false; errors := ["Failed to mount R2 storage"] |}
    else
      try_catch
        (manifestProc <- startProcess sandbox readManifestCmd ;;
         _ <- waitForProcess manifestProc 5000 ;;
         manifestLogs <- getLogs manifestProc ;;
         if negb (JsString.truthy (stdout manifestLogs))
         then ret {| valid := false;
                     errors := ["No manifest found - backup may be from older version"] |}
         else
           manifest <- liftOutcome
                         (JSON_parse (JsString.interpolate (stdout manifestLogs))) ;;
           errs <- verifyEntries sandbox (entries manifest) [] ;;
           ret {| valid := (length errs =? 0)%nat; errors := errs |})
        (fun err =>
           ret {| valid := false;
                  errors := ["Verification error: " ++ message_or "Unknown" err] |}).

(** *** Vocabulary for the statements below *)

Definition manifestOf (run : Run) : BackupManifest :=
  {| version := 1;
     timestamp := now;
     entries := manifestEntries (stdout (manifestLogs run)) |}.

(** The commands of a full cycle, in the order they are issued. *)
Definition cycleCommands (run : Run) : list string :=
  [ checkCmd; rotateCmd; syncCmd; manifestCmd;
    writeManifestCmd (manifestOf run); readTimestampCmd ].

(** The trace after the mount call and the first [n] commands. *)
Definition issued (n : nat) (run : Run) : list Event :=
  MountCall :: map StartProcess (firstn n (cycleCommands run)).

(** The sandbox starts [p] for [command] after [tr], and waiting for [p]
    returns. *)
Definition answers (sandbox : Sandbox) (tr : list Event) (command : string)
           (timeoutMs : Z) (p : Process) : Prop :=
  spawn sandbox tr command = Returned p /\ completion p timeoutMs = None.

(** Every step of the cycle is spawned, finishes within its timeout and
    hands over the logs the pipeline reads; the marker check prints "ok". *)
Definition Completes (sandbox : Sandbox) (run : Run) : Prop :=
  mountable sandbox [] = true
  /\ answers sandbox (issued 0 run) checkCmd 5000 (checkProc run)
  /\ logs (checkProc run) = Returned (checkLogs run)
  /\ JsString.includesOpt "ok" (stdout (checkLogs run)) = true
  /\ answers sandbox (issued 1 run) rotateCmd 15000 (rotateProc run)
  /\ answers sandbox (issued 2 run) syncCmd 30000 (proc run)
  /\ answers sandbox (issued 3 run) manifestCmd 15000 (manifestProc run)
  /\ logs (manifestProc run) = Returned (manifestLogs run)
  /\ answers sandbox (issued 4 run) (writeManifestCmd (manifestOf run)) 5000
             (writeProc run)
  /\ answers sandbox (issued 5 run) readTimestampCmd 5000 (timestampProc run)
  /\ logs (timestampProc run) = Returned (timestampLogs run).

(** The token read back from [.last-sync], trimmed. *)
Definition tokenOf (run : Run) : option string :=
  option_map JsString.trim (stdout (timestampLogs run)).

(** What a completed cycle returns. *)
Definition verdict (run : Run) : SyncResult :=
  if wellFormedToken (tokenOf run)
  then {| success := true; lastSync := tokenOf run;
          error := None; details := None |}
  else match logs (proc run) with
       | Returned l => failure "Sync failed" (Some (transferDetails l))
       | Raised err => failure "Sync error" (Some (message_or "Unknown error" err))
       end.





(** The checksums the sandbox recomputes for the entries of a manifest,
    one [md5sum] after the other from the trace [tr]; [None] when one of
    the steps throws. *)
Fixpoint recomputed (sandbox : Sandbox) (tr : list Event)
         (es : list ManifestEntry) : option (list (option string)) :=
  match es with
  | [] => Some []
  | entry :: rest =>
      match spawn sandbox tr (verifyCmd entry) with
      | Returned p =>
          match completion p 5000, logs p with
          | None, Returned l =>
              option_map (cons (option_map JsString.trim (stdout l)))
                (recomputed sandbox (tr ++ [StartProcess (verifyCmd entry)])%list rest)
          | _, _ => None
          end
      | Raised _ => None
      end
  end.

(** The entries whose recomputed checksum is not the recorded one, each
    with the checksum found. *)
Definition corrupted (es : list ManifestEntry) (actuals : list (option string))
  : list (ManifestEntry * option string) :=
  filter (fun ea => differs (snd ea) (checksum (fst ea))) (combine es actuals).

Definition mismatchOf (ea : ManifestEntry * option string) : string :=
  mismatchMessage (fst ea) (snd ea).

(** The commands the verification loop issues for a manifest. *)
Definition verifyCommands (es : list ManifestEntry) : list Event :=
  map (fun entry => StartProcess (verifyCmd entry)) es.

(** The record lines of the manifest listing, as the pipeline cuts them. *)
Definition recordLines (out : option string) : list string :=
  JsString.split "010"
    (JsString.trim (match out with
                    | Some s => if JsString.nonempty s then s else ""
                    | None => ""
                    end)).

(** The size field of a record line does not read as an integer (it is
    absent, or [parseInt] gives NaN). *)
Definition sizeUnparsable (line : string) : bool :=
  match nth_error (JsString.split "|" line) 2 with
  | Some field => match JsString.parseInt10 field with
                  | Some _ => false
                  | None => true
                  end
  | None => true
  end.

(** The step [command] throws [e]: when it is spawned, or when it is
    awaited. *)
Definition raisesAt (sandbox : Sandbox) (tr : list Event) (command : string)
           (timeoutMs : Z) (e : Thrown) : Prop :=
  spawn sandbox tr command = Raised e
  \/ exists p, spawn sandbox tr command = Returned p
               /\ completion p timeoutMs = Some e.

(** ... or when its logs are read. *)
Definition raisesWithLogs (sandbox : Sandbox) (tr : list Event)
           (command : string) (timeoutMs : Z) (e : Thrown) : Prop :=
  raisesAt sandbox tr command timeoutMs e
  \/ exists p, answers sandbox tr command timeoutMs p /\ logs p = Raised e.

(** Every error text [syncToR2] can put in a result. *)
Definition syncErrors : list string :=
  [ "R2 storage is not configured";
    "Failed to mount R2 storage";
    "Sync aborted: source missing clawdbot.json";
    "Failed to verify source files";
    "Sync failed";
    "Sync error" ].






(** A computation that can only return. *)
Definition neverRaises {A} (m : M A) : Prop :=
  forall tr, exists a tr', m tr = (Returned a, tr').


(** *** Stepping lemmas *)

Lemma bind_ret {A B} (a : A) (k : A -> M B) tr :
  (x <- ret a ;; k x) tr = k a tr.
Proof. reflexivity. Qed.

Lemma bind_startProcess {B} sandbox command (k : Process -> M B) tr :
  (p <- startProcess sandbox command ;; k p) tr =
  match spawn sandbox tr command with
  | Returned p => k p (tr ++ [StartProcess command])%list
  | Raised e => (Raised e, (tr ++ [StartProcess command])%list)
  end.
Proof.
  unfold bind, startProcess. destruct (spawn sandbox tr command); reflexivity.
Qed.

Lemma bind_waitForProcess {B} p ms (k : unit -> M B) tr :
  (u <- waitForProcess p ms ;; k u) tr =
  match completion p ms with
  | None => k tt tr
  | Some e => (Raised e, tr)
  end.
Proof.
  unfold bind, waitForProcess. destruct (completion p ms); reflexivity.
Qed.

Lemma bind_getLogs {B} p (k : Logs -> M B) tr :
  (l <- getLogs p ;; k l) tr =
  match logs p with
  | Returned l => k l tr
  | Raised e => (Raised e, tr)
  end.
Proof.
  unfold bind, getLogs. destruct (logs p); reflexivity.
Qed.

Lemma bind_mountR2Storage {B} sandbox env (k : bool -> M B) tr :
  (b <- mountR2Storage sandbox env ;; k b) tr =
  k (mountable sandbox tr) (tr ++ [MountCall])%list.
Proof. reflexivity. Qed.

(** One spawned-and-awaited step under the hypothesis [answers]. *)
Lemma step_answers {B} sandbox tr command ms p (k : Process -> M B) :
  answers sandbox tr command ms p ->
  (q <- startProcess sandbox command ;;
   _ <- waitForProcess q ms ;; k q) tr
  = k p (tr ++ [StartProcess command])%list.
Proof.
  intros [Hspawn Hwait].
  rewrite bind_startProcess, Hspawn, bind_waitForProcess, Hwait.
  reflexivity.
Qed.

(** *** Totality: what can and what cannot raise *)

Lemma neverRaises_ret {A} (a : A) : neverRaises (ret a).
Proof. intros tr. exists a, tr. reflexivity. Qed.

Lemma neverRaises_bind {A B} (m : M A) (k : A -> M B) :
  neverRaises m -> (forall a, neverRaises (k a)) -> neverRaises (bind m k).
Proof.
  intros Hm Hk tr. unfold bind.
  destruct (Hm tr) as (a & tr' & ->). apply Hk.
Qed.

(** A [try] whose handler only returns cannot raise, whatever its body
    does. *)
Lemma neverRaises_try_catch {A} (body : M A) (handler : Thrown -> M A) :
  (forall e, neverRaises (handler e)) -> neverRaises (try_catch body handler).
Proof.
  intros Hh tr. unfold try_catch.
  destruct (body tr) as [[a | e] tr'].
  - exists a, tr'. reflexivity.
  - apply Hh.
Qed.

Lemma neverRaises_mountR2Storage sandbox env :
  neverRaises (mountR2Storage sandbox env).
Proof. intros tr. eexists _, _. reflexivity. Qed.

Lemma neverRaises_if {A} (b : bool) (m1 m2 : M A) :
  neverRaises m1 -> neverRaises m2 -> neverRaises (if b then m1 else m2).
Proof. destruct b; auto. Qed.

Lemma neverRaises_syncToR2 sandbox env : neverRaises (syncToR2 sandbox env).
Proof.
  unfold syncToR2.
  apply neverRaises_if; [apply neverRaises_ret|].
  apply neverRaises_bind; [apply neverRaises_mountR2Storage|].
  intros mounted. apply neverRaises_if; [apply neverRaises_ret|].
  apply neverRaises_bind.
  - apply neverRaises_try_catch. intros e. apply neverRaises_ret.
  - intros [result|]; [apply neverRaises_ret|].
    apply neverRaises_try_catch. intros e. apply neverRaises_ret.
Qed.

Lemma neverRaises_verifyR2Backup sandbox env :
  neverRaises (verifyR2Backup sandbox env).
Proof.
  unfold verifyR2Backup.
  apply neverRaises_if; [apply neverRaises_ret|].
  apply neverRaises_bind; [apply neverRaises_mountR2Storage|].
  intros mounted. apply neverRaises_if; [apply neverRaises_ret|].
  apply neverRaises_try_catch. intros e. apply neverRaises_ret.
Qed.

(** *** The sanity check and complete cycles *)

Lemma not_configured_missing env :
  JsString.truthy (R2_ACCESS_KEY_ID env) = false
  \/ JsString.truthy (R2_SECRET_ACCESS_KEY env) = false
  \/ JsString.truthy (CF_ACCOUNT_ID env) = false ->
  not_configured env = true.
Proof.
  unfold not_configured.
  destruct (JsString.truthy (R2_ACCESS_KEY_ID env)),
           (JsString.truthy (R2_SECRET_ACCESS_KEY env)),
           (JsString.truthy (CF_ACCOUNT_ID env));
    cbn [negb orb]; intuition congruence.
Qed.

(** The check ran to its end: this is what it makes of the logs. *)
Lemma sanityCheck_answers sandbox tr p l :
  answers sandbox tr checkCmd 5000 p ->
  logs p = Returned l ->
  sanityCheck sandbox tr =
  (Returned
     (if JsString.includesOpt "ok" (stdout l) then None
      else Some (failure "Sync aborted: source missing clawdbot.json"
                   (Some "The local config directory is missing critical files. This could indicate corruption or an incomplete setup."))),
   (tr ++ [StartProcess checkCmd])%list).
Proof.
  intros Hans Hlogs. unfold sanityCheck, try_catch.
  rewrite (step_answers _ _ _ _ _ _ Hans), bind_getLogs, Hlogs.
  destruct (JsString.includesOpt "ok" (stdout l)); reflexivity.
Qed.

Lemma backupCycle_completed sandbox run :
  Completes sandbox run ->
  backupCycle sandbox (issued 1 run) = (Returned (verdict run), issued 6 run).
Proof.
  intros (_ & _ & _ & _ & Hrot & Hsync & Hman & Hmlogs & Hwrite & Hread & Htlogs).
  unfold backupCycle, try_catch.
  rewrite (step_answers _ _ _ _ _ _ Hrot).
  rewrite (step_answers _ _ _ _ _ _ Hsync).
  rewrite (step_answers _ _ _ _ _ _ Hman).
  rewrite bind_getLogs, Hmlogs.
  cbv zeta.
  rewrite (step_answers _ _ _ _ _ _ Hwrite).
  rewrite (step_answers _ _ _ _ _ _ Hread).
  rewrite bind_getLogs, Htlogs.
  unfold verdict, tokenOf.
  destruct (wellFormedToken (option_map JsString.trim (stdout (timestampLogs run)))).
  - reflexivity.
  - rewrite bind_getLogs. destruct (logs (proc run)); reflexivity.
Qed.

Lemma syncToR2_completed sandbox env run :
  not_configured env = false ->
  Completes sandbox run ->
  syncToR2 sandbox env [] = (Returned (verdict run), issued 6 run).
Proof.
  intros Hconf Hrun.
  pose proof Hrun as (Hmount & Hcheck & Hclogs & Hok & _).
  unfold syncToR2. rewrite Hconf, bind_mountR2Storage, Hmount. cbn [negb].
  change ([] ++ [MountCall])%list with (issued 0 run).
  unfold bind. rewrite (sanityCheck_answers _ _ _ _ Hcheck Hclogs), Hok.
  apply (backupCycle_completed _ _ Hrun).
Qed.


(** *** Facts about trimming *)






(** *** The trace only grows *)












(** *** Success is decided by the token alone *)

Lemma wellFormedToken_date token :
  wellFormedToken token = true ->
  exists t, token = Some t /\ JsString.matches_date_prefix t = true.
Proof.
  destruct token as [t|]; [|discriminate].
  cbn [wellFormedToken]. intros H. apply andb_true_iff in H as [_ H].
  exists t. split; [reflexivity | exact H].
Qed.

Ltac crack_steps :=
  repeat
    (first
       [ rewrite bind_startProcess
       | rewrite bind_waitForProcess
       | rewrite bind_getLogs
       | match goal with
         | |- context [match spawn ?s ?t ?c with _ => _ end] =>
             destruct (spawn s t c) eqn:?
         | |- context [match completion ?p ?ms with _ => _ end] =>
             destruct (completion p ms) eqn:?
         | |- context [match logs ?p with _ => _ end] =>
             destruct (logs p) eqn:?
         | |- context [if wellFormedToken ?t then _ else _] =>
             destruct (wellFormedToken t) eqn:?
         | |- context [JsString.includesOpt ?a ?b] =>
             destruct (JsString.includesOpt a b) eqn:?
         end ];
     cbv beta iota zeta; cbn [negb]).

Ltac leaf :=
  let H := fresh in
  intros H; inversion H; subst; clear H; cbn [success lastSync failure].




(** *** The commands are pairwise different where it matters *)

Lemma check_not_rotate : String.eqb checkCmd rotateCmd = false.
Proof. reflexivity. Qed.
Lemma sync_not_rotate : String.eqb syncCmd rotateCmd = false.
Proof. reflexivity. Qed.
Lemma manifest_not_rotate : String.eqb manifestCmd rotateCmd = false.
Proof. reflexivity. Qed.
Lemma write_not_rotate m : String.eqb (writeManifestCmd m) rotateCmd = false.
Proof. reflexivity. Qed.
Lemma read_not_rotate : String.eqb readTimestampCmd rotateCmd = false.
Proof. reflexivity. Qed.
Lemma check_not_sync : String.eqb checkCmd syncCmd = false.
Proof. reflexivity. Qed.
Lemma rotate_not_sync : String.eqb rotateCmd syncCmd = false.
Proof. reflexivity. Qed.
Lemma manifest_not_sync : String.eqb manifestCmd syncCmd = false.
Proof. reflexivity. Qed.
Lemma write_not_sync m : String.eqb (writeManifestCmd m) syncCmd = false.
Proof. reflexivity. Qed.
Lemma read_not_sync : String.eqb readTimestampCmd syncCmd = false.
Proof. reflexivity. Qed.

#[local] Hint Rewrite
  check_not_rotate sync_not_rotate manifest_not_rotate write_not_rotate
  read_not_rotate check_not_sync rotate_not_sync manifest_not_sync
  write_not_sync read_not_sync String.eqb_refl : commands.

(** *** Fields the pipeline never reads *)






(** *** The verification loop *)

Lemma recomputed_length sandbox es :
  forall tr actuals,
    recomputed sandbox tr es = Some actuals -> length actuals = length es.
Proof.
  induction es as [|entry rest IH]; intros tr actuals H; cbn [recomputed] in H.
  - injection H as <-. reflexivity.
  - destruct (spawn sandbox tr (verifyCmd entry)) as [p|]; [|discriminate].
    destruct (completion p 5000); [discriminate|].
    destruct (logs p) as [l|]; [|discriminate].
    destruct (recomputed sandbox _ rest) as [tail|] eqn:Htail; [|discriminate].
    injection H as <-. cbn [length]. f_equal. exact (IH _ _ Htail).
Qed.

(** The loop visits every entry and collects exactly the mismatches, in
    manifest order. *)
Lemma verifyEntries_recomputed sandbox es :
  forall tr errs actuals,
    recomputed sandbox tr es = Some actuals ->
    verifyEntries sandbox es errs tr
    = (Returned (errs ++ map mismatchOf (corrupted es actuals))%list,
       (tr ++ verifyCommands es)%list).
Proof.
  induction es as [|entry rest IH]; intros tr errs actuals H;
    cbn [recomputed] in H.
  - injection H as <-. cbn. now rewrite !app_nil_r.
  - destruct (spawn sandbox tr (verifyCmd entry)) as [p|] eqn:Hspawn;
      [|discriminate].
    destruct (completion p 5000) eqn:Hwait; [discriminate|].
    destruct (logs p) as [l|] eqn:Hlogs; [|discriminate].
    destruct (recomputed sandbox _ rest) as [tail|] eqn:Htail; [|discriminate].
    injection H as <-.
    cbn [verifyEntries].
    rewrite bind_startProcess, Hspawn, bind_waitForProcess, Hwait,
      bind_getLogs, Hlogs.
    cbv zeta. rewrite (IH _ _ _ Htail).
    unfold corrupted, verifyCommands.
    cbn [combine filter fst snd map].
    destruct (differs (option_map JsString.trim (stdout l)) (checksum entry));
      cbn [map]; now rewrite <- !app_assoc.
Qed.



(** *** Substrings *)

Lemma prefix_append s t : String.prefix s (s ++ t) = true.
Proof.
  induction s as [|c s IH]; [destruct t; reflexivity|].
  cbn [append String.prefix]. destruct (ascii_dec c c); [exact IH | congruence].
Qed.





(** *** Record lines *)

Lemma split_cons sep s : exists piece pieces, JsString.split sep s = piece :: pieces.
Proof.
  destruct s as [|c s]; cbn [JsString.split]; [eauto|].
  destruct (Ascii.eqb c sep); [eauto|].
  destruct (JsString.split sep s); eauto.
Qed.

(** A line that passed the filter has a second field. *)
Lemma kept_line_has_checksum line :
  JsString.includes "|" line = true ->
  exists p c rest, JsString.split "|" line = p :: c :: rest.
Proof.
  induction line as [|ch line IH]; [discriminate|].
  cbn [JsString.includes String.prefix JsString.split].
  destruct (Ascii.eqb_spec ch "|") as [-> | Hne].
  - intros _. destruct (split_cons "|" line) as (piece & pieces & ->). eauto.
  - destruct (ascii_dec "|" ch) as [<- | _]; [congruence|].
    cbn [orb]. intros H. destruct (IH H) as (p & c & rest & ->). eauto.
Qed.

Lemma manifestEntries_recordLines out :
  manifestEntries out
  = map entryOfLine (filter (JsString.includes "|") (recordLines out)).
Proof. reflexivity. Qed.

Lemma size_unparsable_zero line :
  sizeUnparsable line = true -> size (entryOfLine line) = 0%Z.
Proof.
  unfold sizeUnparsable, entryOfLine. cbn [size].
  destruct (nth_error (JsString.split "|" line) 2) as [field|]; [|reflexivity].
  destruct (JsString.parseInt10 field); [discriminate | reflexivity].
Qed.


Lemma commands_differ c1 c2 :
  String.eqb c1 c2 = false -> StartProcess c1 <> StartProcess c2.
Proof.
  intros Hne Heq. injection Heq as ->. rewrite String.eqb_refl in Hne.
  discriminate.
Qed.

(** ** The claims *)

(** C1.  When the marker check runs and its stdout does not contain "ok",
    [syncToR2] returns [success = false] with the error that names the
    missing [clawdbot.json]; the only calls of the invocation are the mount
    and the check itself, so neither the rotation command nor the transfer
    command (nor any [rsync], [rm -rf] or [cp -a]) is issued. *)
Theorem C1_missing_marker_aborts_before_rotation sandbox env p l :
  not_configured env = false ->
  mountable sandbox [] = true ->
  answers sandbox [MountCall] checkCmd 5000 p ->
  logs p = Returned l ->
  JsString.includesOpt "ok" (stdout l) = false ->
  exists r tr,
    syncToR2 sandbox env [] = (Returned r, tr)
    /\ success r = false
    /\ error r = Some "Sync aborted: source missing clawdbot.json"
    /\ tr = [MountCall; StartProcess checkCmd]
    /\ ~ In (StartProcess rotateCmd) tr
    /\ ~ In (StartProcess syncCmd) tr
    /\ (forall command,
           In (StartProcess command) tr ->
           JsString.includes "rsync" command = false
           /\ JsString.includes "rm -rf" command = false
           /\ JsString.includes "cp -a" command = false).
Proof.
  intros Hconf Hmount Hcheck Hlogs Hok.
  eexists _, _. split.
  - unfold syncToR2. rewrite Hconf, bind_mountR2Storage, Hmount. cbn [negb app].
    unfold bind. rewrite (sanityCheck_answers _ _ _ _ Hcheck Hlogs), Hok.
    reflexivity.
  - repeat split; try reflexivity.
    + intros [H | [H | []]]; [discriminate H|].
      exact (commands_differ _ _ check_not_rotate H).
    + intros [H | [H | []]]; [discriminate H|].
      exact (commands_differ _ _ check_not_sync H).
    + destruct H as [H | [H | []]]; [discriminate H|].
      injection H as <-. reflexivity.
    + destruct H as [H | [H | []]]; [discriminate H|].
      injection H as <-. reflexivity.
    + destruct H as [H | [H | []]]; [discriminate H|].
      injection H as <-. reflexivity.
Qed.


(** C5.  With one of the three credentials missing (undefined or empty),
    both operations return their "R2 storage is not configured" result and
    leave the trace as it was: no mount call, no command. *)
Theorem C5_unconfigured_has_no_side_effect sandbox env tr :
  JsString.truthy (R2_ACCESS_KEY_ID env) = false
  \/ JsString.truthy (R2_SECRET_ACCESS_KEY env) = false
  \/ JsString.truthy (CF_ACCOUNT_ID env) = false ->
  syncToR2 sandbox env tr
  = (Returned {| success := false; lastSync := None;
                 error := Some "R2 storage is not configured";
                 details := None |}, tr)
  /\ verifyR2Backup sandbox env tr
     = (Returned {| valid := false;
                    errors := ["R2 storage is not configured"] |}, tr).
Proof.
  intros Hmissing. apply not_configured_missing in Hmissing.
  unfold syncToR2, verifyR2Backup. rewrite Hmissing. split; reflexivity.
Qed.

(** C8.  When configuration and mount succeed and reading the manifest
    yields no content (stdout undefined or empty), [verifyR2Backup]
    returns, without raising, [valid = false] and the single error
    "No manifest found - backup may be from older version". *)
Theorem C8_absent_manifest_is_reported sandbox env p l :
  not_configured env = false ->
  mountable sandbox [] = true ->
  answers sandbox [MountCall] readManifestCmd 5000 p ->
  logs p = Returned l ->
  JsString.truthy (stdout l) = false ->
  exists message,
    verifyR2Backup sandbox env []
    = (Returned {| valid := false; errors := [message] |},
       [MountCall; StartProcess readManifestCmd])
    /\ message = "No manifest found - backup may be from older version"
    /\ JsString.includes "no manifest found" (JsString.toLowerCase message) = true.
Proof.
  intros Hconf Hmount Hread Hlogs Hempty.
  eexists. split; [|split; reflexivity].
  unfold verifyR2Backup. rewrite Hconf, bind_mountR2Storage, Hmount.
  cbn [negb app]. unfold try_catch.
  rewrite (step_answers _ _ _ _ _ _ Hread), bind_getLogs, Hlogs, Hempty.
  reflexivity.
Qed.

(** C9.  Whatever the environment, the sandbox and the behaviour of the
    spawned commands (starting, waiting and reading logs may each throw),
    both operations return a structured result; neither raises. *)
Theorem C9_operations_never_raise sandbox env tr :
  (exists r tr', syncToR2 sandbox env tr = (Returned r, tr'))
  /\ (exists v tr', verifyR2Backup sandbox env tr = (Returned v, tr')).
Proof.
  split.
  - apply neverRaises_syncToR2.
  - apply neverRaises_verifyR2Backup.
Qed.




(** C7 (amended).  Of the record lines of the listing only those without a
    '|' are skipped.  Every line with a '|' yields an entry, in order; a
    record whose size field is absent or does not parse as an integer is
    kept, with size 0.  Nothing aborts the manifest. *)
Theorem C7_only_lines_without_separator_are_skipped out :
  length (manifestEntries out)
  = length (filter (JsString.includes "|") (recordLines out))
  /\ (forall line,
         In line (recordLines out) ->
         JsString.includes "|" line = true ->
         In (entryOfLine line) (manifestEntries out))
  /\ (forall e,
         In e (manifestEntries out) ->
         exists line,
           In line (recordLines out)
           /\ JsString.includes "|" line = true
           /\ e = entryOfLine line)
  /\ (forall line,
         JsString.includes "|" line = true ->
         exists p c rest,
           JsString.split "|" line = p :: c :: rest
           /\ path (entryOfLine line) = p
           /\ checksum (entryOfLine line) = c)
  /\ (forall line,
         sizeUnparsable line = true -> size (entryOfLine line) = 0%Z).
Proof.
  rewrite manifestEntries_recordLines. repeat split.
  - apply length_map.
  - intros line Hin Hsep. apply in_map. apply filter_In. now split.
  - intros e Hin. apply in_map_iff in Hin as (line & <- & Hline).
    apply filter_In in Hline as [Hin Hsep]. exists line. now repeat split.
  - intros line Hsep.
    destruct (kept_line_has_checksum _ Hsep) as (p & c & rest & Hsplit).
    exists p, c, rest. unfold entryOfLine. rewrite Hsplit. now repeat split.
  - apply size_unparsable_zero.
Qed.


(** ** Further properties of the sync pipeline *)

(** What the sanity check does on an arbitrary sandbox: it issues the
    check command and nothing else, it never raises, and it lets the cycle
    go on only when the check ran to its end and printed "ok". *)
Lemma sanityCheck_cases sandbox tr :
  exists res,
    sanityCheck sandbox tr = (Returned res, (tr ++ [StartProcess checkCmd])%list)
    /\ (res = None ->
        exists p l,
          answers sandbox tr checkCmd 5000 p
          /\ logs p = Returned l
          /\ JsString.includesOpt "ok" (stdout l) = true)
    /\ (forall r, res = Some r ->
          success r = false /\ lastSync r = None
          /\ (error r = Some "Sync aborted: source missing clawdbot.json"
              \/ error r = Some "Failed to verify source files")).
Proof.
  unfold sanityCheck, try_catch, answers.
  crack_steps; unfold ret; eexists; (split; [reflexivity|]); split;
    try discriminate;
    try (intros _; eauto 10);
    try (intros r Hr; injection Hr as <-; cbn; auto).
Qed.

(** X1.  When the credentials are present and the mount provider answers
    false, both operations return their "Failed to mount R2 storage" result
    and the mount call is the only external call: no command is started. *)
Theorem mount_failure_starts_no_command sandbox env :
  not_configured env = false ->
  mountable sandbox [] = false ->
  syncToR2 sandbox env []
  = (Returned {| success := false; lastSync := None;
                 error := Some "Failed to mount R2 storage";
                 details := None |}, [MountCall])
  /\ verifyR2Backup sandbox env []
     = (Returned {| valid := false;
                    errors := ["Failed to mount R2 storage"] |}, [MountCall]).
Proof.
  intros Hconf Hmount. unfold syncToR2, verifyR2Backup.
  rewrite Hconf, !bind_mountR2Storage, Hmount. split; reflexivity.
Qed.

(** X2.  When the marker check throws (at the spawn, at the wait or when the
    logs are read), [syncToR2] does not raise: it returns
    "Failed to verify source files" with the message of the error (or
    "Unknown error" for a thrown value that is not an [Error]), and the
    check is the last command of the invocation. *)
Theorem thrown_check_is_reported sandbox env e :
  not_configured env = false ->
  mountable sandbox [] = true ->
  raisesWithLogs sandbox [MountCall] checkCmd 5000 e ->
  syncToR2 sandbox env []
  = (Returned {| success := false; lastSync := None;
                 error := Some "Failed to verify source files";
                 details := Some (match e with
                                  | ErrorObject message => message
                                  | OtherValue => "Unknown error"
                                  end) |},
     [MountCall; StartProcess checkCmd]).
Proof.
  intros Hconf Hmount Hraise.
  unfold syncToR2. rewrite Hconf, bind_mountR2Storage, Hmount. cbn [negb app].
  unfold bind at 1, sanityCheck, try_catch.
  rewrite bind_startProcess.
  destruct Hraise as [[Hspawn | (p & Hspawn & Hwait)] | (p & [Hspawn Hwait] & Hlogs)];
    rewrite Hspawn; [reflexivity | |].
  - rewrite bind_waitForProcess, Hwait. reflexivity.
  - rewrite bind_waitForProcess, Hwait, bind_getLogs, Hlogs. reflexivity.
Qed.

(** X3.  On every sandbox and environment, a command other than the marker
    check is started only when the credentials are present, the mount
    succeeded and the marker check ran to its end and printed "ok".  So no
    rotation, transfer, manifest or timestamp command ever precedes a
    passed sanity check. *)
Theorem commands_need_passed_check sandbox env command :
  In (StartProcess command) (snd (syncToR2 sandbox env [])) ->
  command <> checkCmd ->
  not_configured env = false
  /\ mountable sandbox [] = true
  /\ exists p l,
       answers sandbox [MountCall] checkCmd 5000 p
       /\ logs p = Returned l
       /\ JsString.includesOpt "ok" (stdout l) = true.
Proof.
  unfold syncToR2.
  destruct (not_configured env); [intros []|].
  rewrite bind_mountR2Storage.
  destruct (mountable sandbox []); cbn [negb app];
    [|intros [H | []]; discriminate H].
  unfold bind at 1.
  destruct (sanityCheck_cases sandbox [MountCall]) as (res & -> & Hnone & _).
  destruct res as [r|].
  - cbn. intros [H | [H | []]] Hne; [discriminate H|].
    injection H as <-. congruence.
  - intros _ _. split; [reflexivity|]. split; [reflexivity|]. now apply Hnone.
Qed.

Lemma failure_shape msg info :
  In msg syncErrors ->
  success (failure msg info) = false
  /\ lastSync (failure msg info) = None
  /\ exists m, error (failure msg info) = Some m /\ In m syncErrors.
Proof. intros H. split; [reflexivity|]. split; [reflexivity|]. now exists msg. Qed.

Ltac known_error :=
  unfold syncErrors; cbn [In]; repeat (first [left; reflexivity | right]).

(** X4.  Every result of [syncToR2], on every sandbox, has one of two
    shapes: a success with a date-prefixed [lastSync] and neither error nor
    details, or a failure without [lastSync] whose error is one of the six
    fixed texts. *)
Theorem sync_result_shape sandbox env tr :
  exists r tr',
    syncToR2 sandbox env tr = (Returned r, tr')
    /\ ((success r = true
         /\ error r = None /\ details r = None
         /\ exists t, lastSync r = Some t
                      /\ JsString.matches_date_prefix t = true)
        \/ (success r = false
            /\ lastSync r = None
            /\ exists msg, error r = Some msg /\ In msg syncErrors)).
Proof.
  unfold syncToR2.
  destruct (not_configured env).
  { eexists _, _. split; [reflexivity|]. right.
    apply failure_shape. known_error. }
  rewrite bind_mountR2Storage.
  destruct (mountable sandbox tr); cbn [negb].
  2:{ eexists _, _. split; [reflexivity|]. right.
      apply failure_shape. known_error. }
  unfold bind at 1.
  destruct (sanityCheck_cases sandbox (tr ++ [MountCall])%list)
    as (res & -> & _ & Hsome).
  destruct res as [r|].
  { destruct (Hsome r eq_refl) as (Hs & Hl & He).
    exists r. eexists. split; [reflexivity|]. right.
    split; [exact Hs|]. split; [exact Hl|].
    destruct He as [He | He]; rewrite He; eexists; (split; [reflexivity|]);
      known_error. }
  unfold backupCycle, try_catch. cbv zeta.
  crack_steps; unfold ret; eexists _, _; (split; [reflexivity|]);
    try (right; apply failure_shape; known_error; fail).
  left. cbn [success error details lastSync]. repeat (split; [reflexivity|]).
  now apply wellFormedToken_date.
Qed.

(** X5.  Success is reported only for a cycle in which every step ran to
    its end: if [syncToR2] returns [success = true], then all six commands
    were started, in order, each was awaited and the logs were read, and
    [lastSync] is the trimmed read-back. *)
Theorem success_needs_complete_cycle sandbox env r tr :
  syncToR2 sandbox env [] = (Returned r, tr) ->
  success r = true ->
  not_configured env = false
  /\ exists run,
       Completes sandbox run
       /\ tr = MountCall
                 :: map StartProcess
                      [ checkCmd; rotateCmd; syncCmd; manifestCmd;
                        writeManifestCmd (manifestOf run); readTimestampCmd ]
       /\ lastSync r = tokenOf run.
Proof.
  unfold syncToR2.
  destruct (not_configured env); [leaf; discriminate|].
  rewrite bind_mountR2Storage.
  destruct (mountable sandbox []) eqn:Hmount; cbn [negb app];
    [|leaf; discriminate].
  unfold bind at 1.
  destruct (sanityCheck_cases sandbox [MountCall]) as (res & -> & Hnone & Hsome).
  destruct res as [early|].
  { destruct (Hsome early eq_refl) as (Hs & _). leaf. congruence. }
  destruct (Hnone eq_refl) as (cp & cl & [Hcs Hcw] & Hcl & Hok).
  unfold backupCycle, try_catch. cbv zeta.
  crack_steps; unfold ret; leaf; try discriminate.
  intros _. split; [reflexivity|].
  match goal with
  | H1 : spawn sandbox _ rotateCmd = Returned ?rp,
    H2 : spawn sandbox _ syncCmd = Returned ?sp,
    H3 : spawn sandbox _ manifestCmd = Returned ?mp,
    H4 : logs ?mp = Returned ?ml,
    H5 : spawn sandbox _ (writeManifestCmd _) = Returned ?wp,
    H6 : spawn sandbox _ readTimestampCmd = Returned ?tp,
    H7 : logs ?tp = Returned ?tl |- _ =>
      exists {| checkProc := cp; checkLogs := cl; rotateProc := rp; proc := sp;
                manifestProc := mp; manifestLogs := ml; writeProc := wp;
                timestampProc := tp; timestampLogs := tl |}
  end.
  unfold Completes, answers, issued, tokenOf, manifestOf.
  cbn [checkProc checkLogs rotateProc proc manifestProc manifestLogs writeProc
       timestampProc timestampLogs cycleCommands firstn map].
  repeat split; assumption || reflexivity.
Qed.

(** X6.  Rotation sits in the same [try] as the transfer: when spawning or
    awaiting the rotation command throws, the cycle ends there with
    "Sync error" and the message of the error, and the transfer command is
    never started. *)
Theorem thrown_rotation_ends_cycle sandbox env p l e :
  not_configured env = false ->
  mountable sandbox [] = true ->
  answers sandbox [MountCall] checkCmd 5000 p ->
  logs p = Returned l ->
  JsString.includesOpt "ok" (stdout l) = true ->
  raisesAt sandbox [MountCall; StartProcess checkCmd] rotateCmd 15000 e ->
  syncToR2 sandbox env []
  = (Returned {| success := false; lastSync := None;
                 error := Some "Sync error";
                 details := Some (match e with
                                  | ErrorObject message => message
                                  | OtherValue => "Unknown error"
                                  end) |},
     [MountCall; StartProcess checkCmd; StartProcess rotateCmd])
  /\ ~ In (StartProcess syncCmd)
          [MountCall; StartProcess checkCmd; StartProcess rotateCmd].
Proof.
  intros Hconf Hmount Hcheck Hlogs Hok Hraise. split.
  - unfold syncToR2. rewrite Hconf, bind_mountR2Storage, Hmount.
    cbn [negb app]. unfold bind at 1.
    rewrite (sanityCheck_answers _ _ _ _ Hcheck Hlogs), Hok. cbn [app].
    unfold backupCycle, try_catch. rewrite bind_startProcess.
    destruct Hraise as [Hspawn | (q & Hspawn & Hwait)]; rewrite Hspawn.
    + reflexivity.
    + rewrite bind_waitForProcess, Hwait. reflexivity.
  - intros [H | [H | [H | []]]]; [discriminate H | |].
    + exact (commands_differ _ _ check_not_sync H).
    + exact (commands_differ _ _ rotate_not_sync H).
Qed.

(** ** Further properties of verification *)

Lemma corrupted_recorded es :
  corrupted es (map (fun entry => Some (checksum entry)) es) = [].
Proof.
  unfold corrupted. induction es as [|entry rest IH]; [reflexivity|].
  cbn [map combine filter fst snd differs].
  now rewrite String.eqb_refl.
Qed.

(** The run of [verifyR2Backup] once the manifest has been read and parsed,
    as long as no verification step throws. *)
Lemma verifyR2Backup_recomputed sandbox env p l text manifest actuals :
  not_configured env = false ->
  mountable sandbox [] = true ->
  answers sandbox [MountCall] readManifestCmd 5000 p ->
  logs p = Returned l ->
  stdout l = Some text ->
  JsString.nonempty text = true ->
  JSON_parse text = Returned manifest ->
  recomputed sandbox [MountCall; StartProcess readManifestCmd]
             (entries manifest) = Some actuals ->
  verifyR2Backup sandbox env []
  = (Returned
       {| valid := (length (map mismatchOf (corrupted (entries manifest) actuals))
                    =? 0)%nat;
          errors := map mismatchOf (corrupted (entries manifest) actuals) |},
     ([MountCall; StartProcess readManifestCmd]
        ++ verifyCommands (entries manifest))%list).
Proof.
  intros Hconf Hmount Hread Hlogs Hout Hne Hparse Hsums.
  unfold verifyR2Backup. rewrite Hconf, bind_mountR2Storage, Hmount.
  cbn [negb app]. unfold try_catch.
  rewrite (step_answers _ _ _ _ _ _ Hread), bind_getLogs, Hlogs, Hout.
  cbn [JsString.truthy JsString.interpolate]. rewrite Hne. cbn [negb].
  unfold bind at 1. unfold liftOutcome. rewrite Hparse.
  unfold bind. cbn [app].
  rewrite (verifyEntries_recomputed _ _ _ [] _ Hsums).
  reflexivity.
Qed.

(** X7.  When the destination still holds every file with the digest the
    manifest records (each [md5sum] prints the recorded checksum), the
    backup verifies: [valid = true] with no error, after one [md5sum] per
    entry. *)
Theorem intact_backup_is_valid sandbox env p l text manifest :
  not_configured env = false ->
  mountable sandbox [] = true ->
  answers sandbox [MountCall] readManifestCmd 5000 p ->
  logs p = Returned l ->
  stdout l = Some text ->
  JsString.nonempty text = true ->
  JSON_parse text = Returned manifest ->
  recomputed sandbox [MountCall; StartProcess readManifestCmd]
             (entries manifest)
  = Some (map (fun entry => Some (checksum entry)) (entries manifest)) ->
  verifyR2Backup sandbox env []
  = (Returned {| valid := true; errors := [] |},
     ([MountCall; StartProcess readManifestCmd]
        ++ verifyCommands (entries manifest))%list).
Proof.
  intros Hconf Hmount Hread Hlogs Hout Hne Hparse Hsums.
  rewrite (verifyR2Backup_recomputed _ _ _ _ _ _ _
             Hconf Hmount Hread Hlogs Hout Hne Hparse Hsums).
  now rewrite corrupted_recorded.
Qed.

(** X8.  A manifest that does not parse is not a crash: [verifyR2Backup]
    returns [valid = false] with the single error
    "Verification error: <message>" ("Unknown" for a thrown value that is
    not an [Error]), and no [md5sum] is started. *)
Theorem unreadable_manifest_is_reported sandbox env p l text e :
  not_configured env = false ->
  mountable sandbox [] = true ->
  answers sandbox [MountCall] readManifestCmd 5000 p ->
  logs p = Returned l ->
  stdout l = Some text ->
  JsString.nonempty text = true ->
  JSON_parse text = Raised e ->
  verifyR2Backup sandbox env []
  = (Returned {| valid := false;
                 errors := ["Verification error: "
                            ++ match e with
                               | ErrorObject message => message
                               | OtherValue => "Unknown"
                               end] |},
     [MountCall; StartProcess readManifestCmd]).
Proof.
  intros Hconf Hmount Hread Hlogs Hout Hne Hparse.
  unfold verifyR2Backup. rewrite Hconf, bind_mountR2Storage, Hmount.
  cbn [negb app]. unfold try_catch.
  rewrite (step_answers _ _ _ _ _ _ Hread), bind_getLogs, Hlogs, Hout.
  cbn [JsString.truthy JsString.interpolate]. rewrite Hne. cbn [negb].
  unfold bind at 1. unfold liftOutcome. rewrite Hparse.
  reflexivity.
Qed.





(** ** The manifest listing read back *)




























End Sync.

(** ** The claims on concrete sandboxes *)

Abbreviation mockSync := (syncToR2 Mock.mountPath Mock.stringify Mock.clock).
Abbreviation mockVerify := (verifyR2Backup Mock.mountPath Mock.parse).
Abbreviation mockCompletes :=
  (Completes Mock.mountPath Mock.stringify Mock.clock).

Lemma mock_completes run :
  JsString.includesOpt "ok" (stdout (checkLogs run)) = true ->
  logs (checkProc run) = Returned (checkLogs run) ->
  logs (manifestProc run) = Returned (manifestLogs run) ->
  logs (timestampProc run) = Returned (timestampLogs run) ->
  completion (checkProc run) 5000 = None ->
  completion (rotateProc run) 15000 = None ->
  completion (proc run) 30000 = None ->
  completion (manifestProc run) 15000 = None ->
  completion (writeProc run) 5000 = None ->
  completion (timestampProc run) 5000 = None ->
  mockCompletes (Mock.sandbox (Mock.scriptOf run) true) run.
Proof.
  intros. unfold Completes, answers. repeat split; assumption || reflexivity.
Defined.

Lemma goodRun_completes :
  mockCompletes (Mock.sandbox (Mock.scriptOf Mock.goodRun) true) Mock.goodRun.
Proof. apply mock_completes; reflexivity. Defined.






Lemma C1_witness :
  exists r tr,
    mockSync (Mock.sandbox [Mock.ok ""] true) Mock.env [] = (Returned r, tr)
    /\ success r = false
    /\ error r = Some "Sync aborted: source missing clawdbot.json"
    /\ tr = [MountCall; StartProcess (checkCmd)].
Proof.
  destruct (C1_missing_marker_aborts_before_rotation
              Mock.mountPath Mock.stringify Mock.clock
              (Mock.sandbox [Mock.ok ""] true) Mock.env
              (Mock.process "" "" 0) (Mock.output "" "")
              eq_refl eq_refl (conj eq_refl eq_refl) eq_refl eq_refl)
    as (r & tr & Hrun & Hfail & Herr & Htr & _).
  exists r, tr. repeat split; assumption.
Defined.





Lemma C5_witness :
  mockSync (Mock.sandbox [] true) Mock.envWithout []
  = (Returned {| success := false; lastSync := None;
                 error := Some "R2 storage is not configured";
                 details := None |}, [])
  /\ mockVerify (Mock.sandbox [] true) Mock.envWithout []
     = (Returned {| valid := false;
                    errors := ["R2 storage is not configured"] |}, []).
Proof.
  apply C5_unconfigured_has_no_side_effect. right. left. reflexivity.
Defined.


(** The claim as worded has a record with an unparsable size skipped.  The
    second line below is such a record, and it is in the manifest, with
    size 0. *)
Lemma C7_counterexample :
  In "skills/a.md|def456|n/a" (recordLines (stdout (manifestLogs Mock.goodRun)))
  /\ JsString.parseInt10 "n/a" = None
  /\ sizeUnparsable "skills/a.md|def456|n/a" = true
  /\ manifestEntries (stdout (manifestLogs Mock.goodRun))
     = [ {| path := "clawdbot/clawdbot.json"; checksum := "abc123"; size := 100 |};
         {| path := "skills/a.md"; checksum := "def456"; size := 0 |} ]
  /\ In {| path := "skills/a.md"; checksum := "def456"; size := 0 |}
        (manifestEntries (stdout (manifestLogs Mock.goodRun))).
Proof.
  split; [vm_compute; right; left; reflexivity|].
  split; [reflexivity|].
  split; [reflexivity|].
  split; [vm_compute; reflexivity|].
  vm_compute. right. left. reflexivity.
Qed.

Lemma C8_witness :
  mockVerify (Mock.sandbox [Mock.ok ""] true) Mock.env []
  = (Returned {| valid := false;
                 errors := ["No manifest found - backup may be from older version"] |},
     [MountCall; StartProcess (readManifestCmd Mock.mountPath)]).
Proof.
  destruct (C8_absent_manifest_is_reported
              Mock.mountPath Mock.parse
              (Mock.sandbox [Mock.ok ""] true) Mock.env
              (Mock.process "" "" 0) (Mock.output "" "")
              eq_refl eq_refl (conj eq_refl eq_refl) eq_refl eq_refl)
    as (message & Hrun & -> & _).
  exact Hrun.
Defined.


(** ** The further properties of the pipeline on concrete sandboxes *)

Lemma mount_failure_witness :
  mockSync (Mock.sandbox [] false) Mock.env []
  = (Returned {| success := false; lastSync := None;
                 error := Some "Failed to mount R2 storage";
                 details := None |}, [MountCall])
  /\ mockVerify (Mock.sandbox [] false) Mock.env []
     = (Returned {| valid := false;
                    errors := ["Failed to mount R2 storage"] |}, [MountCall]).
Proof. apply mount_failure_starts_no_command; reflexivity. Defined.

Lemma thrown_check_witness :
  mockSync (Mock.sandbox [Mock.hanging] true) Mock.env []
  = (Returned {| success := false; lastSync := None;
                 error := Some "Failed to verify source files";
                 details := Some "timeout" |},
     [MountCall; StartProcess checkCmd]).
Proof.
  apply (thrown_check_is_reported Mock.mountPath Mock.stringify Mock.clock
           (Mock.sandbox [Mock.hanging] true) Mock.env (ErrorObject "timeout")).
  - reflexivity.
  - reflexivity.
  - left. right. eexists. split; reflexivity.
Defined.

Lemma goodRun_runs :
  mockSync (Mock.sandbox (Mock.scriptOf Mock.goodRun) true) Mock.env []
  = (Returned (verdict Mock.goodRun),
     issued Mock.mountPath Mock.stringify Mock.clock 6 Mock.goodRun).
Proof. apply syncToR2_completed; [reflexivity | exact goodRun_completes]. Defined.

Lemma commands_need_passed_check_witness :
  exists p l,
    answers (Mock.sandbox (Mock.scriptOf Mock.goodRun) true)
            [MountCall] checkCmd 5000 p
    /\ logs p = Returned l
    /\ JsString.includesOpt "ok" (stdout l) = true.
Proof.
  apply (commands_need_passed_check
           Mock.mountPath Mock.stringify Mock.clock
           (Mock.sandbox (Mock.scriptOf Mock.goodRun) true) Mock.env
           (syncCmd Mock.mountPath)).
  - rewrite goodRun_runs. cbn [snd]. do 3 right. left. reflexivity.
  - intros H. apply (f_equal (fun s => String.get 0 s)) in H. discriminate H.
Defined.

Lemma success_needs_complete_cycle_witness :
  exists run,
    mockCompletes (Mock.sandbox (Mock.scriptOf Mock.goodRun) true) run
    /\ Some "2026-01-27T12:00:00+00:00" = tokenOf run.
Proof.
  destruct (success_needs_complete_cycle
              Mock.mountPath Mock.stringify Mock.clock
              (Mock.sandbox (Mock.scriptOf Mock.goodRun) true) Mock.env
              (verdict Mock.goodRun)
              (issued Mock.mountPath Mock.stringify Mock.clock 6 Mock.goodRun)
              goodRun_runs eq_refl)
    as (_ & run & Hrun & _ & Htoken).
  exists run. split; [exact Hrun | exact Htoken].
Defined.

Lemma thrown_rotation_witness :
  mockSync
    (Mock.sandbox [Mock.ok "ok"; Mock.throwing "sandbox unreachable"] true)
    Mock.env []
  = (Returned {| success := false; lastSync := None;
                 error := Some "Sync error";
                 details := Some "sandbox unreachable" |},
     [MountCall; StartProcess checkCmd;
      StartProcess (rotateCmd Mock.mountPath)]).
Proof.
  apply (thrown_rotation_ends_cycle
           Mock.mountPath Mock.stringify Mock.clock
           (Mock.sandbox [Mock.ok "ok"; Mock.throwing "sandbox unreachable"] true)
           Mock.env (Mock.process "ok" "" 0) (Mock.output "ok" "")
           (ErrorObject "sandbox unreachable")).
  - reflexivity.
  - reflexivity.
  - split; reflexivity.
  - reflexivity.
  - reflexivity.
  - left. reflexivity.
Defined.

Lemma intact_backup_witness :
  fst (mockVerify
         (Mock.sandbox [Mock.ok Mock.document; Mock.ok ("abc123" ++ nl);
                        Mock.ok "def456"; Mock.ok ("0a1b2c" ++ nl)] true)
         Mock.env [])
  = Returned {| valid := true; errors := [] |}.
Proof.
  rewrite (intact_backup_is_valid
             Mock.mountPath Mock.parse
             (Mock.sandbox [Mock.ok Mock.document; Mock.ok ("abc123" ++ nl);
                            Mock.ok "def456"; Mock.ok ("0a1b2c" ++ nl)] true)
             Mock.env (Mock.process Mock.document "" 0)
             (Mock.output Mock.document "") Mock.document Mock.manifest).
  - reflexivity.
  - reflexivity.
  - reflexivity.
  - split; reflexivity.
  - reflexivity.
  - reflexivity.
  - reflexivity.
  - reflexivity.
  - reflexivity.
Defined.

Lemma unreadable_manifest_witness :
  mockVerify (Mock.sandbox [Mock.ok "<html>502</html>"] true) Mock.env []
  = (Returned {| valid := false;
                 errors := ["Verification error: Unexpected token in JSON"] |},
     [MountCall; StartProcess (readManifestCmd Mock.mountPath)]).
Proof.
  apply (unreadable_manifest_is_reported
           Mock.mountPath Mock.parse
           (Mock.sandbox [Mock.ok "<html>502</html>"] true) Mock.env
           (Mock.process "<html>502</html>" "" 0)
           (Mock.output "<html>502</html>" "") "<html>502</html>"
           (ErrorObject "Unexpected token in JSON")).
  - reflexivity.
  - reflexivity.
  - split; reflexivity.
  - reflexivity.
  - reflexivity.
  - reflexivity.
  - reflexivity.
Defined.





(** ** The scenarios of the repository's test-suite *)

Example test_returns_error_when_R2_is_not_configured :
  fst (mockSync (Mock.sandbox [] true) Mock.envWithout [])
  = Returned {| success := false; lastSync := None;
                error := Some "R2 storage is not configured";
                details := None |}.
Proof. reflexivity. Qed.

Example test_returns_error_when_mount_fails :
  fst (mockSync (Mock.sandbox [Mock.ok ""] false) Mock.env [])
  = Returned {| success := false; lastSync := None;
                error := Some "Failed to mount R2 storage";
                details := None |}.
Proof. reflexivity. Qed.

Example test_returns_success_when_sync_completes :
  fst (mockSync
         (Mock.sandbox
            [ Mock.ok "ok"; Mock.ok ""; Mock.ok "";
              Mock.ok ("clawdbot/clawdbot.json|abc123|100" ++ nl);
              Mock.ok ""; Mock.ok "2026-01-27T12:00:00+00:00" ] true)
         Mock.env [])
  = Returned {| success := true;
                lastSync := Some "2026-01-27T12:00:00+00:00";
                error := None; details := None |}.
Proof. vm_compute. reflexivity. Qed.

Example test_returns_error_when_rsync_fails :
  fst (mockSync
         (Mock.sandbox
            [ Mock.ok "ok"; Mock.ok ""; Returned (Mock.process "" "" 1);
              Mock.ok ""; Mock.ok ""; Mock.ok "" ] true)
         Mock.env [])
  = Returned {| success := false; lastSync := None;
                error := Some "Sync failed";
                details := Some "No timestamp file created" |}.
Proof. vm_compute. reflexivity. Qed.

Example test_rotation_precedes_rsync :
  nth_error
    (snd (mockSync (Mock.sandbox (Mock.scriptOf Mock.goodRun) true) Mock.env []))
    2
  = Some (StartProcess (rotateCmd Mock.mountPath))
  /\ JsString.includes "clawdbot.prev" (rotateCmd Mock.mountPath) = true
  /\ JsString.includes "cp -a" (rotateCmd Mock.mountPath) = true
  /\ JsString.includes "/data/moltbot/" (syncCmd Mock.mountPath) = true
  /\ JsString.includes "--no-times" (syncCmd Mock.mountPath) = true.
Proof. vm_compute. repeat split. Qed.

(** A spawn that throws and a wait that times out are caught. *)
Example thrown_spawn_is_reported :
  fst (mockSync
         (Mock.sandbox [Mock.ok "ok"; Mock.throwing "sandbox unreachable"] true)
         Mock.env [])
  = Returned {| success := false; lastSync := None;
                error := Some "Sync error";
                details := Some "sandbox unreachable" |}.
Proof. vm_compute. reflexivity. Qed.

Example timed_out_check_is_reported :
  fst (mockSync (Mock.sandbox [Mock.hanging] true) Mock.env [])
  = Returned {| success := false; lastSync := None;
                error := Some "Failed to verify source files";
                details := Some "timeout" |}.
Proof. vm_compute. reflexivity. Qed.

(** ** Properties of the authentication code *)

(** *** The JWKS cache *)

Lemma cacheGet_cacheSet issuer entry cache :
  cacheGet issuer (cacheSet issuer entry cache) = Some entry.
Proof.
  induction cache as [|[key old] rest IH]; cbn [cacheSet cacheGet].
  - now rewrite String.eqb_refl.
  - destruct (String.eqb key issuer) eqn:E; cbn [cacheGet]; now rewrite E.
Qed.

Lemma cacheGet_cacheSet_other issuer other entry cache :
  other <> issuer ->
  cacheGet other (cacheSet issuer entry cache) = cacheGet other cache.
Proof.
  intros Hne. induction cache as [|[key old] rest IH]; cbn [cacheSet cacheGet].
  - destruct (String.eqb_spec issuer other); [congruence | reflexivity].
  - destruct (String.eqb_spec key issuer) as [-> | Hk]; cbn [cacheGet].
    + destruct (String.eqb_spec issuer other); [congruence | reflexivity].
    + now rewrite IH.
Qed.

(** X13.  The cache keeps a key set for five minutes from its creation, not
    from its last use.  After a call that had to create the key set at
    time [dateNow w], every call for the same issuer less than 300000 ms
    later returns that same key set and changes nothing; the first call at
    or after 300000 ms creates a fresh one and restarts the clock of the
    entry. *)
Theorem jwks_cache_lifetime services issuer w made w1 url :
  cacheGet issuer (jwksCache w) = None ->
  getOrCreateJWKS services issuer w = (Returned made, w1) ->
  newURL services (issuer ++ "/cdn-cgi/access/certs") = Returned url ->
  JWKS_CACHE_TTL_MS = 300000%Z
  /\ made = {| certsUrl := url; serial := fetchers w |}
  /\ (forall t,
         (t - dateNow w < 300000)%Z ->
         getOrCreateJWKS services issuer (atTime t w1)
         = (Returned made, atTime t w1))
  /\ (forall t,
         (300000 <= t - dateNow w)%Z ->
         exists w2,
           getOrCreateJWKS services issuer (atTime t w1)
           = (Returned {| certsUrl := url; serial := S (fetchers w) |}, w2)
           /\ cacheGet issuer (jwksCache w2)
              = Some {| jwks := {| certsUrl := url; serial := S (fetchers w) |};
                        createdAt := t |}
           /\ fetchers w2 = S (S (fetchers w))).
Proof.
  intros Hmiss Hcall Hurl. split; [reflexivity|].
  unfold getOrCreateJWKS in Hcall. rewrite Hmiss, Hurl in Hcall.
  cbv zeta in Hcall. injection Hcall as <- <-.
  split; [reflexivity|]. split.
  - intros t Ht. unfold getOrCreateJWKS.
    cbn [atTime withCache jwksCache dateNow fetchers].
    rewrite cacheGet_cacheSet. cbn [createdAt jwks].
    unfold JWKS_CACHE_TTL_MS.
    destruct (Z.ltb_spec (t - dateNow w) (5 * 60 * 1000)); [reflexivity | lia].
  - intros t Ht. unfold getOrCreateJWKS.
    cbn [atTime withCache jwksCache dateNow fetchers].
    rewrite cacheGet_cacheSet. cbn [createdAt jwks].
    unfold JWKS_CACHE_TTL_MS.
    destruct (Z.ltb_spec (t - dateNow w) (5 * 60 * 1000)); [lia|].
    rewrite Hurl. eexists. split; [reflexivity|].
    cbn [withCache jwksCache fetchers]. split; [|reflexivity].
    apply cacheGet_cacheSet.
Qed.

(** X14.  Getting the key set of one issuer never touches the cache entry
    of another issuer, whether the call hits, creates or throws. *)
Theorem jwks_cache_isolation services issuer other w :
  other <> issuer ->
  cacheGet other (jwksCache (snd (getOrCreateJWKS services issuer w)))
  = cacheGet other (jwksCache w).
Proof.
  intros Hne. unfold getOrCreateJWKS. cbv zeta.
  destruct (cacheGet issuer (jwksCache w)) as [entry|];
    [destruct (dateNow w - createdAt entry <? JWKS_CACHE_TTL_MS)%Z;
     [reflexivity|]|];
    destruct (newURL services (issuer ++ "/cdn-cgi/access/certs"));
    cbn [snd withCache jwksCache]; try reflexivity;
    now apply cacheGet_cacheSet_other.
Qed.

(** X15.  After [clearJWKSCache] nothing is cached: the next call for any
    issuer builds a new key set (and throws when its URL does not parse),
    however recently one was made. *)
Theorem cleared_cache_misses services issuer w :
  let w0 := snd (clearJWKSCache w) in
  forall other, cacheGet other (jwksCache w0) = None
  /\ match newURL services (issuer ++ "/cdn-cgi/access/certs") with
     | Returned url =>
         fst (getOrCreateJWKS services issuer w0)
         = Returned {| certsUrl := url; serial := fetchers w |}
         /\ fetchers (snd (getOrCreateJWKS services issuer w0)) = S (fetchers w)
     | Raised e =>
         getOrCreateJWKS services issuer w0 = (Raised e, w0)
     end.
Proof.
  intros w0 other. split; [reflexivity|].
  unfold getOrCreateJWKS, w0. cbn [clearJWKSCache snd withCache jwksCache cacheGet].
  destruct (newURL services (issuer ++ "/cdn-cgi/access/certs")).
  - split; reflexivity.
  - reflexivity.
Qed.

(** *** The issuer *)

(** X16.  The issuer always carries the [https://] scheme and normalising
    is idempotent, so a team domain written with or without the scheme is
    verified in exactly the same way: same issuer, same key-set URL, same
    cache entry, same call of [jwtVerify]. *)
Theorem issuer_is_normalised services token teamDomain expectedAud :
  String.prefix "https://" (issuerOf teamDomain) = true
  /\ issuerOf (issuerOf teamDomain) = issuerOf teamDomain
  /\ issuerOf ("https://" ++ teamDomain) = "https://" ++ teamDomain
  /\ (String.prefix "https://" teamDomain = false ->
      forall w,
        verifyAccessJWT services token ("https://" ++ teamDomain) expectedAud w
        = verifyAccessJWT services token teamDomain expectedAud w).
Proof.
  assert (Hnorm : String.prefix "https://" (issuerOf teamDomain) = true).
  { unfold issuerOf.
    destruct (String.prefix "https://" teamDomain) eqn:E; [exact E|].
    apply prefix_append. }
  assert (Hfull : issuerOf ("https://" ++ teamDomain) = "https://" ++ teamDomain).
  { unfold issuerOf. now rewrite prefix_append. }
  split; [exact Hnorm|]. split; [|split; [exact Hfull|]].
  - unfold issuerOf at 1. now rewrite Hnorm.
  - intros Hbare w. unfold verifyAccessJWT. rewrite Hfull.
    unfold issuerOf. now rewrite Hbare.
Qed.

(** *** Development and test modes *)

(** X17.  Production lock: once both [CF_ACCESS_TEAM_DOMAIN] and
    [CF_ACCESS_AUD] are set, neither [DEV_MODE] nor [E2E_TEST_MODE] has any
    effect; a flag that is set to "true" only earns a SECURITY line on the
    console.  Without that configuration each mode is on exactly when its
    variable is the string "true". *)
Theorem bypass_flags_are_blocked_in_production e w :
  (accessConfigured e = true ->
   fst (isDevMode e w) = Returned false
   /\ fst (isE2ETestMode e w) = Returned false
   /\ fst (bypassesAuth e w) = Returned false
   /\ onlyLogs w (snd (bypassesAuth e w))
   /\ (strictlyEquals (DEV_MODE e) "true" = true ->
       console (snd (isDevMode e w))
       = (console w
            ++ [ConsoleError "SECURITY: DEV_MODE blocked - CF Access is configured. Remove DEV_MODE for production." None])%list))
  /\ (accessConfigured e = false ->
      isDevMode e w = (Returned (strictlyEquals (DEV_MODE e) "true"), w)
      /\ isE2ETestMode e w
         = (Returned (strictlyEquals (E2E_TEST_MODE e) "true"), w)).
Proof.
  unfold bypassesAuth, isDevMode, isE2ETestMode, andThen, onlyLogs.
  split; intros Hconf; rewrite Hconf.
  - destruct (strictlyEquals (DEV_MODE e) "true"),
             (strictlyEquals (E2E_TEST_MODE e) "true");
      cbn; repeat split; eauto using app_nil_r; try discriminate;
      try (rewrite <- app_assoc; eauto).
    all: exists []; now rewrite app_nil_r.
  - destruct (strictlyEquals (DEV_MODE e) "true"),
             (strictlyEquals (E2E_TEST_MODE e) "true"); split; reflexivity.
Qed.

(** *** Extracting the token *)







(** X18.  [extractJWT] prefers the [CF-Access-JWT-Assertion] header: a
    non-empty header is returned whatever the cookies say.  It never
    returns an empty string, and without a header and without a [Cookie]
    header (or with an empty one) it returns null. *)
Theorem header_token_wins c :
  (JsString.truthy (jwtAssertion c) = true -> extractJWT c = jwtAssertion c)
  /\ (forall token, extractJWT c = Some token -> token <> "")
  /\ (JsString.truthy (jwtAssertion c) = false ->
      cookie c = None \/ cookie c = Some "" ->
      extractJWT c = None).
Proof.
  unfold extractJWT. cbv zeta. split; [|split].
  - intros H. now rewrite H.
  - intros token.
    destruct (JsString.truthy (jwtAssertion c)) eqn:Hh.
    + intros H. rewrite H in Hh. now destruct token.
    + destruct (JsString.truthy (cookieJWT (cookie c))) eqn:Hc; [|discriminate].
      intros H. rewrite H in Hc. now destruct token.
  - intros -> [-> | ->]; reflexivity.
Qed.


(** *** The middleware *)

Lemma onlyLogs_refl w : onlyLogs w w.
Proof.
  unfold onlyLogs. repeat (split; [reflexivity|]).
  exists []. now rewrite app_nil_r.
Qed.

Lemma bypassesAuth_configured e w :
  accessConfigured e = true ->
  exists w1, bypassesAuth e w = (Returned false, w1) /\ onlyLogs w w1.
Proof.
  intros Hconf. unfold bypassesAuth, isDevMode, isE2ETestMode, andThen.
  rewrite Hconf.
  destruct (strictlyEquals (DEV_MODE e) "true"),
           (strictlyEquals (E2E_TEST_MODE e) "true");
    cbn; eexists; (split; [reflexivity|]); unfold onlyLogs; cbn;
    repeat (split; [reflexivity|]); eauto using onlyLogs_refl.
  - rewrite <- app_assoc. eauto.
  - exists []. now rewrite app_nil_r.
Qed.

Lemma bypassesAuth_unconfigured e w :
  accessConfigured e = false ->
  bypassesAuth e w
  = (Returned (strictlyEquals (DEV_MODE e) "true"
               || strictlyEquals (E2E_TEST_MODE e) "true"), w).
Proof.
  intros Hconf. unfold bypassesAuth, isDevMode, isE2ETestMode, andThen.
  rewrite Hconf.
  destruct (strictlyEquals (DEV_MODE e) "true"),
           (strictlyEquals (E2E_TEST_MODE e) "true"); reflexivity.
Qed.

Lemma accessConfigured_values e :
  accessConfigured e = true ->
  exists teamDomain expectedAud,
    CF_ACCESS_TEAM_DOMAIN e = Some teamDomain
    /\ CF_ACCESS_AUD e = Some expectedAud
    /\ JsString.nonempty teamDomain = true
    /\ JsString.nonempty expectedAud = true.
Proof.
  unfold accessConfigured. intros H. apply andb_true_iff in H as [Ht Ha].
  destruct (CF_ACCESS_TEAM_DOMAIN e) as [td|]; [|discriminate].
  destruct (CF_ACCESS_AUD e) as [aud|]; [|discriminate].
  exists td, aud. auto.
Qed.

Lemma extractJWT_nonempty c token :
  extractJWT c = Some token -> JsString.nonempty token = true.
Proof.
  unfold extractJWT. cbv zeta.
  destruct (JsString.truthy (jwtAssertion c)) eqn:Hh.
  - intros H. now rewrite H in Hh.
  - destruct (JsString.truthy (cookieJWT (cookie c))) eqn:Hc; [|discriminate].
    intros H. now rewrite H in Hc.
Qed.

(** Verification looks at the cache, the clock and the fetcher count only. *)
Lemma verifyAccessJWT_onlyLogs services token teamDomain expectedAud w w1 :
  onlyLogs w w1 ->
  fst (verifyAccessJWT services token teamDomain expectedAud w1)
  = fst (verifyAccessJWT services token teamDomain expectedAud w)
  /\ accessUser (snd (verifyAccessJWT services token teamDomain expectedAud w1))
     = accessUser w
  /\ nextCalls (snd (verifyAccessJWT services token teamDomain expectedAud w1))
     = nextCalls w
  /\ console (snd (verifyAccessJWT services token teamDomain expectedAud w1))
     = console w1.
Proof.
  intros (Hcache & Hnow & Hfetch & Huser & Hnext & _).
  unfold verifyAccessJWT, andThen, getOrCreateJWKS. cbv zeta.
  rewrite Hcache, Hnow, Hfetch.
  destruct (cacheGet (issuerOf teamDomain) (jwksCache w)) as [entry|];
    [destruct (dateNow w - createdAt entry <? JWKS_CACHE_TTL_MS)%Z|];
    try destruct (newURL services (issuerOf teamDomain ++ "/cdn-cgi/access/certs"));
    cbn [fst snd withCache accessUser nextCalls console]; auto.
Qed.

(** The middleware once the bypass is out of the way and a token is there. *)
Lemma middleware_with_token services options c w teamDomain expectedAud token :
  accessConfigured (env c) = true ->
  CF_ACCESS_TEAM_DOMAIN (env c) = Some teamDomain ->
  CF_ACCESS_AUD (env c) = Some expectedAud ->
  extractJWT c = Some token ->
  exists w1,
    onlyLogs w w1
    /\ createAccessMiddleware services options c w
       = attempt
           (andThen (verifyAccessJWT services token teamDomain expectedAud)
              (fun payload =>
                 andThen (setAccessUser (userOf payload))
                   (fun _ => andThen (callNext services) (fun _ => pure None))))
           (fun err =>
              andThen (consoleError "Access JWT verification failed:" (Some err))
                (fun _ =>
                   match type options with
                   | json =>
                       pure (Some (JsonResponse
                                     [ ("error", "Unauthorized");
                                       ("details",
                                        message_or "JWT verification failed" err) ]
                                     401))
                   | html =>
                       pure (Some (HtmlResponse (invalidSessionPage teamDomain)
                                                401))
                   end))
           w1.
Proof.
  intros Hconf Htd Haud Htoken.
  destruct (bypassesAuth_configured _ w Hconf) as (w1 & Hbypass & Hlogs).
  exists w1. split; [exact Hlogs|].
  unfold createAccessMiddleware. cbv zeta. unfold andThen at 1.
  rewrite Hbypass.
  unfold accessConfigured in Hconf. apply andb_true_iff in Hconf as [Ht Ha].
  rewrite Ht, Ha, Htoken. cbn [negb orb JsString.truthy].
  rewrite (extractJWT_nonempty _ _ Htoken). cbn [negb].
  rewrite Htd, Haud. reflexivity.
Qed.

(** X20.  Without dev or test mode and without Access configuration the
    middleware answers 500 (JSON or HTML, by route type) and does nothing
    else: no header is read, [next] is not called, the state is untouched. *)
Theorem unconfigured_access_answers_500 services options c w :
  strictlyEquals (DEV_MODE (env c)) "true" = false ->
  strictlyEquals (E2E_TEST_MODE (env c)) "true" = false ->
  accessConfigured (env c) = false ->
  createAccessMiddleware services options c w
  = (Returned
       (Some (match type options with
              | json =>
                  JsonResponse
                    [ ("error", "Cloudflare Access not configured");
                      ("hint", "Set CF_ACCESS_TEAM_DOMAIN and CF_ACCESS_AUD environment variables") ]
                    500
              | html => HtmlResponse notConfiguredPage 500
              end)),
     w).
Proof.
  intros Hdev Htest Hconf.
  unfold createAccessMiddleware. cbv zeta. unfold andThen at 1.
  rewrite (bypassesAuth_unconfigured _ _ Hconf), Hdev, Htest. cbn [orb].
  unfold accessConfigured in Hconf. apply andb_false_iff in Hconf.
  replace (negb (JsString.truthy (CF_ACCESS_TEAM_DOMAIN (env c)))
           || negb (JsString.truthy (CF_ACCESS_AUD (env c)))) with true
    by (destruct Hconf as [-> | ->]; cbn; now rewrite ?orb_true_r).
  destruct (type options); reflexivity.
Qed.


(** X22.  With Access configured a request without a token is refused and
    nothing else happens: an HTML route with [redirectOnMissing] answers
    302 to [https://<team domain>], a JSON route answers 401 with a hint,
    any other HTML route answers the 401 page; [next] is not called, no
    key set is fetched and no user is set. *)
Theorem missing_token_is_refused services options c w teamDomain :
  accessConfigured (env c) = true ->
  CF_ACCESS_TEAM_DOMAIN (env c) = Some teamDomain ->
  extractJWT c = None ->
  exists w',
    createAccessMiddleware services options c w
    = (Returned
         (Some (match type options, redirectOnMissing options with
                | html, Some true =>
                    RedirectResponse ("https://" ++ teamDomain) 302
                | json, _ =>
                    JsonResponse
                      [ ("error", "Unauthorized");
                        ("hint", "Missing Cloudflare Access JWT. Ensure this route is protected by Cloudflare Access.") ]
                      401
                | html, _ => HtmlResponse (missingTokenPage teamDomain) 401
                end)),
       w')
    /\ onlyLogs w w'.
Proof.
  intros Hconf Htd Htoken.
  destruct (bypassesAuth_configured _ w Hconf) as (w1 & Hbypass & Hlogs).
  exists w1. split; [|exact Hlogs].
  unfold createAccessMiddleware. cbv zeta. unfold andThen at 1.
  rewrite Hbypass.
  unfold accessConfigured in Hconf. apply andb_true_iff in Hconf as [Ht Ha].
  rewrite Ht, Ha, Htoken, Htd. cbn [negb orb JsString.truthy JsString.interpolate].
  destruct (type options), (redirectOnMissing options) as [[|]|]; reflexivity.
Qed.

(** X23.  With Access configured, a token that does not verify (the
    verifier throws, or the key-set URL does not parse) is answered 401:
    the JSON body carries the message of the error, the HTML body the
    "invalid or expired" page.  [next] is not called, no user is set, and
    the failure is logged. *)
Theorem rejected_token_is_refused
        services options c w teamDomain expectedAud token e :
  accessConfigured (env c) = true ->
  CF_ACCESS_TEAM_DOMAIN (env c) = Some teamDomain ->
  CF_ACCESS_AUD (env c) = Some expectedAud ->
  extractJWT c = Some token ->
  fst (verifyAccessJWT services token teamDomain expectedAud w) = Raised e ->
  let w' := snd (createAccessMiddleware services options c w) in
  fst (createAccessMiddleware services options c w)
  = Returned
      (Some (match type options with
             | json =>
                 JsonResponse
                   [ ("error", "Unauthorized");
                     ("details", match e with
                                 | ErrorObject message => message
                                 | OtherValue => "JWT verification failed"
                                 end) ]
                   401
             | html => HtmlResponse (invalidSessionPage teamDomain) 401
             end))
  /\ nextCalls w' = nextCalls w
  /\ accessUser w' = accessUser w
  /\ exists before,
       console w'
       = (before ++ [ConsoleError "Access JWT verification failed:" (Some e)])%list.
Proof.
  intros Hconf Htd Haud Htoken Hverify w'. subst w'.
  destruct (middleware_with_token services options c w _ _ _
              Hconf Htd Haud Htoken) as (w1 & Hlogs & ->).
  destruct (verifyAccessJWT_onlyLogs services token teamDomain expectedAud
              w w1 Hlogs) as (Hfst & Huser & Hnext & Hconsole).
  rewrite Hverify in Hfst.
  unfold attempt, andThen.
  destruct (verifyAccessJWT services token teamDomain expectedAud w1)
    as [[payload|e'] w2]; cbn [fst snd] in *; [discriminate|].
  injection Hfst as ->.
  unfold consoleError, pure.
  destruct (type options), e; cbn [fst snd nextCalls accessUser console];
    (split; [reflexivity|]); (split; [exact Hnext|]);
    (split; [exact Huser|]); eauto.
Qed.

(** X24.  With Access configured, a token that verifies lets the request
    through: the user is set to the e-mail and name of the payload, [next]
    is called exactly once and sees that user, and the middleware returns
    no response of its own. *)
Theorem verified_token_passes
        services options c w teamDomain expectedAud token payload :
  accessConfigured (env c) = true ->
  CF_ACCESS_TEAM_DOMAIN (env c) = Some teamDomain ->
  CF_ACCESS_AUD (env c) = Some expectedAud ->
  extractJWT c = Some token ->
  fst (verifyAccessJWT services token teamDomain expectedAud w)
  = Returned payload ->
  downstream services (Some (userOf payload)) = Returned tt ->
  let w' := snd (createAccessMiddleware services options c w) in
  fst (createAccessMiddleware services options c w) = Returned None
  /\ accessUser w' = Some (userOf payload)
  /\ nextCalls w' = (nextCalls w ++ [Some (userOf payload)])%list.
Proof.
  intros Hconf Htd Haud Htoken Hverify Hnext w'. subst w'.
  destruct (middleware_with_token services options c w _ _ _
              Hconf Htd Haud Htoken) as (w1 & Hlogs & ->).
  destruct (verifyAccessJWT_onlyLogs services token teamDomain expectedAud
              w w1 Hlogs) as (Hfst & Huser & Hcalls & _).
  rewrite Hverify in Hfst.
  unfold attempt, andThen.
  destruct (verifyAccessJWT services token teamDomain expectedAud w1)
    as [[payload'|e'] w2]; cbn [fst snd] in *; [|discriminate].
  injection Hfst as ->.
  unfold setAccessUser, callNext, pure.
  cbn [accessUser nextCalls]. rewrite Hnext. cbn [fst snd accessUser nextCalls].
  rewrite Hcalls. auto.
Qed.


(** X26.  With Access configured there is no way around the verifier: on
    every request, whatever [DEV_MODE] and [E2E_TEST_MODE] say, either
    [next] is not called at all, or the request carried a token, [jwtVerify]
    accepted it for the normalised issuer and the configured audience, and
    [next] was called once, seeing the user of that payload. *)
Theorem next_needs_verified_token services options c w :
  accessConfigured (env c) = true ->
  let w' := snd (createAccessMiddleware services options c w) in
  nextCalls w' = nextCalls w
  \/ exists token teamDomain expectedAud keys payload,
       extractJWT c = Some token
       /\ CF_ACCESS_TEAM_DOMAIN (env c) = Some teamDomain
       /\ CF_ACCESS_AUD (env c) = Some expectedAud
       /\ jwtVerify services token keys (issuerOf teamDomain) expectedAud
          = Returned payload
       /\ nextCalls w' = (nextCalls w ++ [Some (userOf payload)])%list.
Proof.
  intros Hconf w'. subst w'.
  destruct (accessConfigured_values _ Hconf) as (td & aud & Htd & Haud & Htdne & Haudne).
  destruct (extractJWT c) as [token|] eqn:Htoken.
  - destruct (middleware_with_token services options c w _ _ _
                Hconf Htd Haud Htoken) as (w1 & Hlogs & ->).
    destruct (verifyAccessJWT_onlyLogs services token td aud w w1 Hlogs)
      as (_ & _ & Hcalls & _).
    unfold attempt, andThen.
    destruct (verifyAccessJWT services token td aud w1)
      as [[payload|e] w2] eqn:Hverify; cbn [snd] in Hcalls.
    + right. exists token, td, aud.
      unfold verifyAccessJWT, andThen in Hverify.
      destruct (getOrCreateJWKS services (issuerOf td) w1) as [[keys|e] w3];
        [|discriminate].
      injection Hverify as Hverify ->.
      exists keys, payload. repeat (split; [reflexivity || assumption|]).
      unfold setAccessUser, callNext, consoleError, pure.
      cbn [accessUser nextCalls].
      destruct (downstream services (Some (userOf payload)));
        destruct (type options); cbn [snd nextCalls]; now rewrite Hcalls.
    + left. unfold consoleError, pure.
      destruct (type options); cbn [snd nextCalls]; exact Hcalls.
  - left.
    destruct (bypassesAuth_configured _ w Hconf) as (w1 & Hbypass & Hlogs).
    unfold createAccessMiddleware. cbv zeta. unfold andThen at 1.
    rewrite Hbypass, Htd, Haud, Htoken.
    cbn [negb orb JsString.truthy]. rewrite Htdne, Haudne. cbn [negb orb].
    destruct Hlogs as (_ & _ & _ & _ & Hcalls & _).
    destruct (type options), (redirectOnMissing options) as [[|]|];
      exact Hcalls.
Qed.

(** X27.  What the middleware can do, on every request and state: answer
    500, 401 or 302 (never a success status of its own); end without a
    response, and then [next] has been called; or raise, which happens only
    in dev or test mode without Access configuration, when the downstream
    handler raised. *)
Theorem middleware_outcomes services options c w :
  match fst (createAccessMiddleware services options c w) with
  | Returned (Some response) => In (statusOf response) [500; 401; 302]%Z
  | Returned None =>
      exists user,
        nextCalls (snd (createAccessMiddleware services options c w))
        = (nextCalls w ++ [Some user])%list
  | Raised e =>
      accessConfigured (env c) = false
      /\ (strictlyEquals (DEV_MODE (env c)) "true"
          || strictlyEquals (E2E_TEST_MODE (env c)) "true") = true
      /\ downstream services (Some devUser) = Raised e
  end.
Proof.
  destruct (accessConfigured (env c)) eqn:Hconf.
  - destruct (accessConfigured_values _ Hconf)
      as (td & aud & Htd & Haud & Htdne & Haudne).
    destruct (extractJWT c) as [token|] eqn:Htoken.
    + destruct (middleware_with_token services options c w _ _ _
                  Hconf Htd Haud Htoken) as (w1 & Hlogs & ->).
      destruct (verifyAccessJWT_onlyLogs services token td aud w w1 Hlogs)
        as (_ & _ & Hcalls & _).
      unfold attempt, andThen.
      destruct (verifyAccessJWT services token td aud w1)
        as [[payload|e] w2]; cbn [snd] in Hcalls;
        unfold setAccessUser, callNext, consoleError, pure;
        cbn [accessUser nextCalls];
        [destruct (downstream services (Some (userOf payload)))|];
        destruct (type options); cbn [fst snd statusOf nextCalls In];
        try (right; left; reflexivity);
        exists (userOf payload); now rewrite Hcalls.
    + destruct (bypassesAuth_configured _ w Hconf) as (w1 & Hbypass & _).
      unfold createAccessMiddleware. cbv zeta. unfold andThen at 1.
      rewrite Hbypass, Htd, Haud, Htoken.
      cbn [negb orb JsString.truthy]. rewrite Htdne, Haudne. cbn [negb orb].
      destruct (type options), (redirectOnMissing options) as [[|]|];
        cbn [fst statusOf In pure]; auto.
  - unfold createAccessMiddleware. cbv zeta. unfold andThen.
    rewrite (bypassesAuth_unconfigured _ _ Hconf).
    destruct (strictlyEquals (DEV_MODE (env c)) "true"
              || strictlyEquals (E2E_TEST_MODE (env c)) "true") eqn:Hflag.
    + unfold setAccessUser, callNext, pure.
      cbn [accessUser nextCalls].
      destruct (downstream services (Some devUser)) eqn:Hnext;
        cbn [fst snd nextCalls].
      * now exists devUser.
      * now repeat split.
    + unfold accessConfigured in Hconf. apply andb_false_iff in Hconf.
      replace (negb (JsString.truthy (CF_ACCESS_TEAM_DOMAIN (env c)))
               || negb (JsString.truthy (CF_ACCESS_AUD (env c)))) with true
        by (destruct Hconf as [-> | ->]; cbn; now rewrite ?orb_true_r).
      destruct (type options); cbn [fst statusOf In pure]; auto.
Qed.

(** *** The properties of authentication on a concrete deployment *)

Lemma jwks_cache_lifetime_witness :
  getOrCreateJWKS MockAccess.services "https://myteam.cloudflareaccess.com"
    (atTime 300999
       (snd (getOrCreateJWKS MockAccess.services
               "https://myteam.cloudflareaccess.com" MockAccess.start)))
  = (Returned {| certsUrl := "https://myteam.cloudflareaccess.com/cdn-cgi/access/certs";
                 serial := 0 |},
     atTime 300999
       (snd (getOrCreateJWKS MockAccess.services
               "https://myteam.cloudflareaccess.com" MockAccess.start)))
  /\ exists w2,
       fst (getOrCreateJWKS MockAccess.services
              "https://myteam.cloudflareaccess.com"
              (atTime 301000
                 (snd (getOrCreateJWKS MockAccess.services
                         "https://myteam.cloudflareaccess.com" MockAccess.start))))
       = Returned {| certsUrl := "https://myteam.cloudflareaccess.com/cdn-cgi/access/certs";
                     serial := 1 |}
       /\ fetchers w2 = 2.
Proof.
  destruct (jwks_cache_lifetime
              MockAccess.services "https://myteam.cloudflareaccess.com"
              MockAccess.start
              {| certsUrl := "https://myteam.cloudflareaccess.com/cdn-cgi/access/certs";
                 serial := 0 |}
              (snd (getOrCreateJWKS MockAccess.services
                      "https://myteam.cloudflareaccess.com" MockAccess.start))
              "https://myteam.cloudflareaccess.com/cdn-cgi/access/certs"
              eq_refl eq_refl eq_refl)
    as (_ & _ & Hhit & Hmiss).
  split.
  - apply Hhit. cbn. lia.
  - destruct (Hmiss 301000%Z) as (w2 & Hcall & _ & Hcount); [cbn; lia|].
    exists w2. rewrite Hcall. split; [reflexivity | exact Hcount].
Defined.

Lemma jwks_cache_isolation_witness :
  cacheGet "https://other.cloudflareaccess.com"
    (jwksCache
       (snd (getOrCreateJWKS MockAccess.services
               "https://myteam.cloudflareaccess.com"
               (snd (getOrCreateJWKS MockAccess.services
                       "https://other.cloudflareaccess.com" MockAccess.start)))))
  = Some {| jwks := {| certsUrl := "https://other.cloudflareaccess.com/cdn-cgi/access/certs";
                       serial := 0 |};
            createdAt := 1000 |}.
Proof.
  rewrite (jwks_cache_isolation MockAccess.services
             "https://myteam.cloudflareaccess.com"
             "https://other.cloudflareaccess.com").
  - reflexivity.
  - discriminate.
Defined.


Lemma unconfigured_access_witness :
  createAccessMiddleware MockAccess.services MockAccess.jsonRoute
    (MockAccess.request MockAccess.bare (Some "good.jwt.token") None)
    MockAccess.start
  = (Returned
       (Some (JsonResponse
                [ ("error", "Cloudflare Access not configured");
                  ("hint", "Set CF_ACCESS_TEAM_DOMAIN and CF_ACCESS_AUD environment variables") ]
                500)),
     MockAccess.start).
Proof.
  apply (unconfigured_access_answers_500
           MockAccess.services MockAccess.jsonRoute
           (MockAccess.request MockAccess.bare (Some "good.jwt.token") None)
           MockAccess.start); reflexivity.
Defined.


Lemma missing_token_witness :
  exists w',
    createAccessMiddleware MockAccess.services MockAccess.htmlRoute
      (MockAccess.request MockAccess.production None (Some "theme=dark"))
      MockAccess.start
    = (Returned (Some (RedirectResponse "https://myteam.cloudflareaccess.com" 302)),
       w')
    /\ nextCalls w' = [].
Proof.
  destruct (missing_token_is_refused
              MockAccess.services MockAccess.htmlRoute
              (MockAccess.request MockAccess.production None (Some "theme=dark"))
              MockAccess.start MockAccess.teamDomain eq_refl eq_refl eq_refl)
    as (w' & Hrun & _ & _ & _ & _ & Hcalls & _).
  exists w'. split; [exact Hrun | exact Hcalls].
Defined.

Lemma rejected_token_witness :
  fst (createAccessMiddleware MockAccess.services MockAccess.jsonRoute
         (MockAccess.request MockAccess.production (Some "forged.jwt.token") None)
         MockAccess.start)
  = Returned
      (Some (JsonResponse
               [ ("error", "Unauthorized");
                 ("details", "signature verification failed") ]
               401)).
Proof.
  apply (rejected_token_is_refused
           MockAccess.services MockAccess.jsonRoute
           (MockAccess.request MockAccess.production (Some "forged.jwt.token") None)
           MockAccess.start MockAccess.teamDomain MockAccess.audience
           "forged.jwt.token" (ErrorObject "signature verification failed"));
    reflexivity.
Defined.

Lemma verified_token_witness :
  fst (createAccessMiddleware MockAccess.services MockAccess.jsonRoute
         (MockAccess.request MockAccess.production (Some "good.jwt.token") None)
         MockAccess.start)
  = Returned None
  /\ nextCalls
       (snd (createAccessMiddleware MockAccess.services MockAccess.jsonRoute
               (MockAccess.request MockAccess.production (Some "good.jwt.token") None)
               MockAccess.start))
     = [Some {| AccessUser.email := Some "ada@example.com";
                AccessUser.name := Some "Ada" |}].
Proof.
  destruct (verified_token_passes
              MockAccess.services MockAccess.jsonRoute
              (MockAccess.request MockAccess.production (Some "good.jwt.token") None)
              MockAccess.start MockAccess.teamDomain MockAccess.audience
              "good.jwt.token" MockAccess.payload
              eq_refl eq_refl eq_refl eq_refl eq_refl eq_refl)
    as (Hfst & _ & Hcalls).
  split; [exact Hfst | exact Hcalls].
Defined.


Lemma next_needs_verified_token_witness :
  nextCalls
    (snd (createAccessMiddleware MockAccess.services MockAccess.jsonRoute
            (MockAccess.request MockAccess.production (Some "forged.jwt.token") None)
            MockAccess.start))
  = nextCalls MockAccess.start
  \/ exists token teamDomain expectedAud keys payload,
       extractJWT (MockAccess.request MockAccess.production
                     (Some "forged.jwt.token") None) = Some token
       /\ CF_ACCESS_TEAM_DOMAIN MockAccess.production = Some teamDomain
       /\ CF_ACCESS_AUD MockAccess.production = Some expectedAud
       /\ jwtVerify MockAccess.services token keys (issuerOf teamDomain) expectedAud
          = Returned payload
       /\ nextCalls
            (snd (createAccessMiddleware MockAccess.services MockAccess.jsonRoute
                    (MockAccess.request MockAccess.production
                       (Some "forged.jwt.token") None)
                    MockAccess.start))
          = (nextCalls MockAccess.start ++ [Some (userOf payload)])%list.
Proof.
  apply (next_needs_verified_token
           MockAccess.services MockAccess.jsonRoute
           (MockAccess.request MockAccess.production (Some "forged.jwt.token") None)
           MockAccess.start).
  reflexivity.
Defined.

